(** * Query normalisation and SQL synthesis pipeline

    A shallow embedding of [fuzzy_matching.py] (entity extraction,
    approximate matching, per-category normalisation, hint building) and of
    [trial_text2sql.py] (bounded-retry SQL generation and the query
    processor), followed by the properties of the specification that are
    about them.

    Conventions of the embedding.
    - Python [str] values are [string]s of ASCII characters; the text
      primitives ([lower], [strip], [replace], [title], [in], the regular
      expression classes) are given their ASCII meaning, which is the one
      Python gives them on ASCII text.  A property that rests on the
      class, the case or the whitespace of characters is stated for
      ASCII text ([ascii_text]).
    - An insertion-ordered [dict] with string keys is an association list
      ([PyDict]); iteration order is the list order.
    - [list(set(xs))] has an order the language does not fix; it is the
      method of the [PySet] class, of which only the laws every ordering
      satisfies are assumed.
    - The similarity scorer of the fuzzy-matching library, the language
      model, the store and the clock are collaborators outside the
      repository; they are fields of explicit worlds.
    - [print] calls are not modelled. *)

From Stdlib Require Import String Ascii List ZArith Lia Bool Arith Permutation Sorted.
From Stdlib Require Import DecimalString.
From Equations Require Import Equations.
Import ListNotations.
Open Scope string_scope.
Open Scope nat_scope.

(* ===================================================================== *)
(** ** Python text primitives (ASCII) *)
(* ===================================================================== *)

Module PyStr.

Definition code (c : ascii) : nat := nat_of_ascii c.

Definition in_range (lo hi : nat) (c : ascii) : bool :=
  (lo <=? code c) && (code c <=? hi).

Definition is_upper (c : ascii) : bool := in_range 65 90 c.
Definition is_lower (c : ascii) : bool := in_range 97 122 c.
Definition is_alpha (c : ascii) : bool := is_upper c || is_lower c.
Definition is_digit (c : ascii) : bool := in_range 48 57 c.

(** [\w] of the [re] module, on ASCII characters. *)
Definition is_word (c : ascii) : bool :=
  is_alpha c || is_digit c || (code c =? 95).

(** [str.isspace] on one ASCII character: TAB, LF, VT, FF, CR, FS, GS,
    RS, US and the space. *)
Definition is_space (c : ascii) : bool :=
  in_range 9 13 c || in_range 28 32 c.

Definition lower_char (c : ascii) : ascii :=
  if is_upper c then ascii_of_nat (code c + 32) else c.

Definition upper_char (c : ascii) : ascii :=
  if is_lower c then ascii_of_nat (code c - 32) else c.

(** [s.lower()] and [s.upper()], on ASCII text. *)
Fixpoint lower (s : string) : string :=
  match s with
  | EmptyString => EmptyString
  | String c r => String (lower_char c) (lower r)
  end.

Fixpoint upper (s : string) : string :=
  match s with
  | EmptyString => EmptyString
  | String c r => String (upper_char c) (upper r)
  end.

(** Truthiness of a string: [if s]. *)
Definition truthy (s : string) : bool :=
  match s with EmptyString => false | String _ _ => true end.

(** [s.startswith(p)]. *)
Fixpoint startswith (p s : string) : bool :=
  match p, s with
  | EmptyString, _ => true
  | String _ _, EmptyString => false
  | String a p', String b s' => Ascii.eqb a b && startswith p' s'
  end.

(** [p in s] on strings: [p] occurs in [s] as a contiguous run. *)
Fixpoint contains (p s : string) : bool :=
  startswith p s ||
  match s with
  | EmptyString => false
  | String _ r => contains p r
  end.

(** [s.lstrip()], [s.rstrip()] and [s.strip()]. *)
Fixpoint lstrip (s : string) : string :=
  match s with
  | EmptyString => EmptyString
  | String c r => if is_space c then lstrip r else s
  end.

Fixpoint rstrip (s : string) : string :=
  match s with
  | EmptyString => EmptyString
  | String c r =>
      match rstrip r with
      | EmptyString => if is_space c then EmptyString else String c EmptyString
      | r' => String c r'
      end
  end.

Definition strip (s : string) : string := rstrip (lstrip s).

(** [s[n:]]. *)
Fixpoint drop (n : nat) (s : string) : string :=
  match n, s with
  | O, _ => s
  | S _, EmptyString => EmptyString
  | S k, String _ r => drop k r
  end.

(** [s.replace(old, new)] for a non-empty [old]: occurrences are found
    left to right and do not overlap. *)
Equations? replace (old new : string) (s : string) : string
  by wf (String.length s) lt :=
  replace old new EmptyString := EmptyString;
  replace old new (String c r) with startswith old (String c r) => {
    | true := (new ++ replace old new (drop (String.length old - 1) r))%string;
    | false := String c (replace old new r) }.
Proof.
  simpl.
  assert (Hdrop : forall n t, String.length (drop n t) <= String.length t).
  { induction n as [|n IH]; intros [|a t]; simpl; try lia.
    specialize (IH t). lia. }
  specialize (Hdrop (String.length old - 1) r). lia.
Qed.

(** [sep.join(xs)]. *)
Fixpoint join (sep : string) (xs : list string) : string :=
  match xs with
  | [] => EmptyString
  | [x] => x
  | x :: r => x ++ sep ++ join sep r
  end.

(** [s.title()]: a cased character is upper-cased when the one before
    it is not cased and lower-cased otherwise. *)
Fixpoint title_from (prev_cased : bool) (s : string) : string :=
  match s with
  | EmptyString => EmptyString
  | String c r =>
      String (if prev_cased then lower_char c else upper_char c)
             (title_from (is_alpha c) r)
  end.

Definition title (s : string) : string := title_from false s.

(** [str(n)] for an integer. *)
Definition str_of_int (n : Z) : string :=
  NilZero.string_of_int (Z.to_int n).

Definition digit_value (c : ascii) : Z := Z.of_nat (code c - 48).

(** [int(s)] on a string of decimal digits. *)
Definition int_of_digits (s : string) : Z :=
  fold_left (fun acc c => 10 * acc + digit_value c)%Z (list_ascii_of_string s) 0%Z.

End PyStr.

(* ===================================================================== *)
(** ** Insertion-ordered dictionaries and sets *)
(* ===================================================================== *)

Module PyDict.

(** A [dict] with [str] keys; the list order is the insertion order. *)
Definition dict (V : Type) : Type := list (string * V).

(** [d.get(k)]. *)
Fixpoint get {V : Type} (k : string) (d : dict V) : option V :=
  match d with
  | [] => None
  | (k', v) :: r => if String.eqb k k' then Some v else get k r
  end.

(** [d.get(k, default)]. *)
Definition get_or {V : Type} (k : string) (default : V) (d : dict V) : V :=
  match get k d with Some v => v | None => default end.

(** [k in d]. *)
Definition mem {V : Type} (k : string) (d : dict V) : bool :=
  match get k d with Some _ => true | None => false end.

(** [d[k] = v]: an existing key keeps its position, a new key goes last. *)
Fixpoint set {V : Type} (k : string) (v : V) (d : dict V) : dict V :=
  match d with
  | [] => [(k, v)]
  | (k', v') :: r =>
      if String.eqb k k' then (k, v) :: r else (k', v') :: set k v r
  end.

(** A dict display or comprehension: the pairs are stored left to right. *)
Definition of_pairs {V : Type} (kvs : list (string * V)) : dict V :=
  fold_left (fun d kv => set (fst kv) (snd kv) d) kvs [].

Definition keys {V : Type} (d : dict V) : list string := map fst d.

End PyDict.

(** [list(set(xs))] on strings.  The iteration order of a set depends on
    the hashes of its members, which vary from one interpreter run to the
    next; an instance of the class is the behaviour of one run.  The laws
    are those of every run: the result has no repetition and the same
    members as the argument. *)
Class PySet : Type := {
  list_of_set : list string -> list string;
  list_of_set_NoDup : forall l, NoDup (list_of_set l);
  list_of_set_In : forall l x, In x (list_of_set l) <-> In x l
}.

(** The score [process.extract] gives a choice for a query under
    [scorer=fuzz.token_set_ratio] (pre-processing of both included); the
    fuzzy-matching library scores on a scale from 0 to 100. *)
Class Scorer : Type := {
  score : string -> string -> Z;
  score_range : forall query choice, (0 <= score query choice <= 100)%Z
}.

(** Two orderings a run may exhibit: the members by first occurrence,
    and the same reversed. *)
Definition first_seen_order : PySet.
Proof.
  refine {| list_of_set := fun l => rev (nodup string_dec (rev l)) |}.
  - intros l. apply NoDup_rev, NoDup_nodup.
  - intros l x. rewrite <- in_rev, nodup_In, <- in_rev. reflexivity.
Defined.

Definition reversed_order : PySet.
Proof.
  refine {| list_of_set := fun l => nodup string_dec (rev l) |}.
  - intros l. apply NoDup_nodup.
  - intros l x. rewrite nodup_In, <- in_rev. reflexivity.
Defined.

(* ===================================================================== *)
(** ** fuzzy_matching.py *)
(* ===================================================================== *)

Module FuzzyMatching.
Import PyStr PyDict.

Definition SIMILARITY_THRESHOLD : Z := 75.

Definition INSTITUTE_ABBREVIATIONS : dict string := of_pairs [
  ("iit b", "Indian Institute of Technology, Bombay");
  ("iit bombay", "Indian Institute of Technology, Bombay");
  ("iit d", "Indian Institute of Technology, Delhi");
  ("iit delhi", "Indian Institute of Technology, Delhi");
  ("iit k", "Indian Institute of Technology, Kharagpur");
  ("iit kharagpur", "Indian Institute of Technology, Kharagpur");
  ("iit m", "Indian Institute of Technology, Madras");
  ("iit madras", "Indian Institute of Technology, Madras");
  ("iit g", "Indian Institute of Technology, Guwahati");
  ("iit guwahati", "Indian Institute of Technology, Guwahati");
  ("iit r", "Indian Institute of Technology, Roorkee");
  ("iit roorkee", "Indian Institute of Technology, Roorkee");
  ("iit kgp", "Indian Institute of Technology, Kharagpur");
  ("iit kanpur", "Indian Institute of Technology, Kanpur");
  ("iit bhu", "Indian Institute of Technology, Varanasi");
  ("iim a", "Indian Institute of Management, Ahmedabad");
  ("iim ahmedabad", "Indian Institute of Management, Ahmedabad");
  ("iim b", "Indian Institute of Management, Bangalore");
  ("iim bangalore", "Indian Institute of Management, Bangalore");
  ("iim c", "Indian Institute of Management, Calcutta");
  ("iim calcutta", "Indian Institute of Management, Calcutta");
  ("iim l", "Indian Institute of Management, Lucknow");
  ("iim lucknow", "Indian Institute of Management, Lucknow");
  ("mit", "Massachusetts Institute of Technology");
  ("stanford", "Stanford University");
  ("harvard", "Harvard University");
  ("oxford", "University of Oxford");
  ("cambridge", "University of Cambridge");
  ("berkeley", "University of California, Berkeley");
  ("caltech", "California Institute of Technology");
  ("bits", "Birla Institute of Technology and Science");
  ("bits pilani", "Birla Institute of Technology and Science, Pilani");
  ("iiit", "International Institute of Information Technology");
  ("nit", "National Institute of Technology")
].

(** *** The store, as the vocabulary queries see it *)

(** [connect] tells whether [get_db_connection] returns; [select_distinct]
    gives, for the context key a query fills, its column of rows, or
    [None] when the query raises; [release] tells whether closing the
    cursor and giving the connection back go through. *)
Record Store : Type := {
  connect : bool;
  select_distinct : string -> option (list string);
  release : bool
}.

(** Sequencing inside a [try] block: the first failure leaves it. *)
Definition try_bind {A B : Type} (x : option A) (k : A -> option B) : option B :=
  match x with Some a => k a | None => None end.

Notation "'try!' x <- e ; k" := (try_bind e (fun x => k))
  (at level 10, x name, e at level 99, k at level 200).

(** [EntityExtractor._get_db_context]. *)
Definition _get_db_context (st : Store) : dict (list string) :=
  let attempt :=
    if connect st then
      let context := [] in
      try! companies <- select_distinct st "companies";
      let context := set "companies" companies context in
      try! roles <- select_distinct st "roles";
      let context := set "roles" roles context in
      try! cities <- select_distinct st "cities";
      let context := set "cities" cities context in
      try! states <- select_distinct st "states";
      let context := set "states" states context in
      try! countries <- select_distinct st "countries";
      let context := set "countries" countries context in
      try! institutes <- select_distinct st "institutes";
      let context := set "institutes" institutes context in
      try! degrees <- select_distinct st "degrees";
      let context := set "degrees" degrees context in
      try! domains <- select_distinct st "domains";
      let context := set "domains" domains context in
      if release st then Some context else None
    else None in
  match attempt with
  | Some context => context
  | None => []   (* except Exception: return {} *)
  end.

(** *** Year tokens: [re.findall(r'\b(19\d{2}|20\d{2})\b', query)] *)

(** The pattern [19\d{2}|20\d{2}] at the head of [s]; on success the
    matched text and what follows it. *)
Definition year_prefix (s : string) : option (string * string) :=
  match s with
  | String a (String b (String c (String d rest))) =>
      if ((Ascii.eqb a "1" && Ascii.eqb b "9") || (Ascii.eqb a "2" && Ascii.eqb b "0"))
         && is_digit c && is_digit d
      then Some (String a (String b (String c (String d EmptyString))), rest)
      else None
  | _ => None
  end.

(** [\b] between [prev] (the character before, if any) and the head of
    [s] (if any). *)
Definition word_boundary (prev : option ascii) (s : string) : bool :=
  let before := match prev with Some c => is_word c | None => false end in
  let after := match s with String c _ => is_word c | EmptyString => false end in
  xorb before after.

Definition last_char (s : string) : option ascii :=
  match rev (list_ascii_of_string s) with c :: _ => Some c | [] => None end.

(** One attempt of the whole pattern at the head of [s]. *)
Definition match_year (prev : option ascii) (s : string) : option string :=
  if word_boundary prev s then
    match year_prefix s with
    | Some (y, rest) => if word_boundary (last_char y) rest then Some y else None
    | None => None
    end
  else None.

(** The scan of [findall]: an attempt at each position, resumed at the
    end of a match ([skip] counts the characters of a match still to
    pass). *)
Fixpoint findall_years_from (skip : nat) (prev : option ascii) (s : string)
  : list string :=
  match s with
  | EmptyString => []
  | String c r =>
      match skip with
      | S k => findall_years_from k (Some c) r
      | O =>
          match match_year prev s with
          | Some y => y :: findall_years_from 3 (Some c) r
          | None => findall_years_from 0 (Some c) r
          end
      end
  end.

Definition findall_years (query : string) : list string :=
  findall_years_from 0 None query.

(** *** Entities *)

(** The value of one entity category: strings, or integers for years. *)
Inductive entity_values : Type :=
| Strs (l : list string)
| Ints (l : list Z).

Definition strs_of (v : option entity_values) : list string :=
  match v with Some (Strs l) => l | _ => [] end.

Definition ints_of (v : option entity_values) : list Z :=
  match v with Some (Ints l) => l | _ => [] end.

(** Truthiness of [d.get(k)]: present and not empty. *)
Definition truthy_values (v : option entity_values) : bool :=
  match v with
  | Some (Strs (_ :: _)) | Some (Ints (_ :: _)) => true
  | _ => false
  end.

Section WithCollaborators.
Context {PS : PySet} {SC : Scorer}.

(** The vocabulary values of one category that occur in the query. *)
Definition occurring (db_context : dict (list string)) (key query_lower : string)
  : list string :=
  filter (fun v => truthy v && contains (lower v) query_lower)
         (get_or key [] db_context).

(** [EntityExtractor.extract_entities]. *)
Definition extract_entities (st : Store) (query : string) : dict entity_values :=
  let query_lower := lower query in
  let db_context := _get_db_context st in
  let companies := occurring db_context "companies" query_lower in
  let roles := occurring db_context "roles" query_lower in
  let cities := occurring db_context "cities" query_lower in
  let states := occurring db_context "states" query_lower in
  let countries := occurring db_context "countries" query_lower in
  let institutes :=
    (filter (fun abbrev => contains abbrev query_lower) (keys INSTITUTE_ABBREVIATIONS)
     ++ occurring db_context "institutes" query_lower)%list in
  let degrees := occurring db_context "degrees" query_lower in
  let domains := occurring db_context "domains" query_lower in
  let year_matches := findall_years query in
  let entities : dict entity_values :=
    [ ("companies", Strs companies); ("roles", Strs roles);
      ("cities", Strs cities); ("states", Strs states);
      ("countries", Strs countries); ("institutes", Strs institutes);
      ("degrees", Strs degrees); ("domains", Strs domains);
      ("years", Ints (map int_of_digits year_matches)) ] in
  (* Remove duplicates *)
  map (fun kv =>
         match kv with
         | (key, Strs l) =>
             if negb (String.eqb key "years") then (key, Strs (list_of_set l)) else kv
         | (_, Ints _) => kv
         end) entities.

(** *** FuzzyMatcher *)

Record FuzzyMatcher : Type := { threshold : Z }.

(** [sorted(scored, key=score, reverse=True)]: by descending score, equal
    scores in their order of arrival. *)
Fixpoint insert_desc (x : string * Z) (l : list (string * Z)) : list (string * Z) :=
  match l with
  | [] => [x]
  | y :: r => if (snd x <? snd y)%Z then y :: insert_desc x r else x :: l
  end.

Definition sorted_desc (l : list (string * Z)) : list (string * Z) :=
  fold_right insert_desc [] l.

(** [process.extractWithoutOrder(query, choices, scorer)]: the choices
    paired with their scores, those under the cutoff (0) left out. *)
Definition extract_without_order (query : string) (choices : list string)
  : list (string * Z) :=
  filter (fun cs => (0 <=? snd cs)%Z) (map (fun c => (c, score query c)) choices).

(** [process.extract(query, choices, scorer=fuzz.token_set_ratio, limit)],
    which is [heapq.nlargest(limit, scored, key=score)] on the scored
    choices. *)
Definition process_extract (query : string) (choices : list string) (limit : nat)
  : list (string * Z) :=
  firstn limit (sorted_desc (extract_without_order query choices)).

Definition is_nil {A : Type} (l : list A) : bool :=
  match l with [] => true | _ :: _ => false end.

(** [FuzzyMatcher.match_entity]. *)
Definition match_entity (self : FuzzyMatcher) (user_input : string)
  (db_values : list string) : list string :=
  if negb (truthy user_input) || is_nil db_values then [] else
  let db_values := filter truthy db_values in
  if is_nil db_values then [] else
  let matches := process_extract (lower user_input) (map lower db_values) 10 in
  let db_values_lower := of_pairs (map (fun v => (lower v, v)) db_values) in
  let matched_values :=
    flat_map (fun ms =>
                let '(match_, score_) := ms in
                if (threshold self <=? score_)%Z
                then [get_or (lower match_) match_ db_values_lower]
                else []) matches in
  list_of_set matched_values.

(** [FuzzyMatcher.normalize_institutes]. *)
Definition normalize_institutes (self : FuzzyMatcher) (st : Store)
  (institute_inputs : list string) : dict (list string) :=
  let db_institutes := get_or "institutes" [] (_get_db_context st) in
  fold_left
    (fun result institute =>
       let institute_lower := lower institute in
       let matches :=
         match get institute_lower INSTITUTE_ABBREVIATIONS with
         | Some mapped_value => [mapped_value]
         | None =>
             let fuzzy_matches := match_entity self institute db_institutes in
             if is_nil fuzzy_matches then [] else institute :: fuzzy_matches
         end in
       if is_nil matches then result
       else set institute (list_of_set matches) result)
    institute_inputs [].

(** The body shared by [normalize_companies], [normalize_roles],
    [normalize_cities], [normalize_states], [normalize_countries],
    [normalize_domains] and [normalize_degrees], which differ in the
    context key only. *)
Definition normalize_by_key (key : string) (self : FuzzyMatcher) (st : Store)
  (inputs : list string) : dict (list string) :=
  let db_values := get_or key [] (_get_db_context st) in
  fold_left
    (fun result input =>
       let fuzzy_matches := match_entity self input db_values in
       if is_nil fuzzy_matches then result
       else set input (input :: fuzzy_matches) result)
    inputs [].

Definition normalize_companies := normalize_by_key "companies".
Definition normalize_roles := normalize_by_key "roles".
Definition normalize_cities := normalize_by_key "cities".
Definition normalize_states := normalize_by_key "states".
Definition normalize_countries := normalize_by_key "countries".
Definition normalize_domains := normalize_by_key "domains".
Definition normalize_degrees := normalize_by_key "degrees".

(** One step of [normalize_all]: a populated category gets its entry. *)
Definition add_normalized (extracted_entities : dict entity_values) (key : string)
  (normalize : list string -> dict (list string))
  (normalized : dict (dict (list string))) : dict (dict (list string)) :=
  if truthy_values (get key extracted_entities)
  then set key (normalize (strs_of (get key extracted_entities))) normalized
  else normalized.

(** [FuzzyMatcher.normalize_all]. *)
Definition normalize_all (self : FuzzyMatcher) (st : Store)
  (extracted_entities : dict entity_values) : dict (dict (list string)) :=
  let e := extracted_entities in
  let normalized := [] in
  let normalized := add_normalized e "companies" (normalize_companies self st) normalized in
  let normalized := add_normalized e "roles" (normalize_roles self st) normalized in
  let normalized := add_normalized e "cities" (normalize_cities self st) normalized in
  let normalized := add_normalized e "states" (normalize_states self st) normalized in
  let normalized := add_normalized e "countries" (normalize_countries self st) normalized in
  let normalized := add_normalized e "institutes" (normalize_institutes self st) normalized in
  let normalized := add_normalized e "degrees" (normalize_degrees self st) normalized in
  let normalized := add_normalized e "domains" (normalize_domains self st) normalized in
  if truthy_values (get "years" e)
  then set "years"
         (of_pairs (map (fun year => (str_of_int year, [str_of_int year]))
                        (ints_of (get "years" e))))
         normalized
  else normalized.

(** *** QueryNormalizer *)

Definition entity_types : list string :=
  ["companies"; "roles"; "cities"; "states"; "countries";
   "institutes"; "degrees"; "domains"].

(** The hints of one category, one per (original, matches) item. *)
Definition hints_of_type (normalized : dict (dict (list string)))
  (entity_type : string) : list string :=
  match get entity_type normalized with
  | Some ((_ :: _) as entries) =>
      map (fun om =>
             (title entity_type ++ ": " ++ fst om ++ " → " ++ join ", " (snd om))%string)
          entries
  | _ => []
  end.

(** [QueryNormalizer._build_hints]. *)
Definition _build_hints (extracted : dict entity_values)
  (normalized : dict (dict (list string))) : string :=
  let hints := flat_map (hints_of_type normalized) entity_types in
  if is_nil hints then "No entities found" else join " | " hints.

Record NormalizationResult : Type := {
  original_query : string;
  extracted_entities : dict entity_values;
  normalized_entities : dict (dict (list string));
  normalization_hints : string
}.

(** [QueryNormalizer.normalize_query]; the normalizer holds a matcher with
    its threshold. *)
Definition normalize_query (matcher : FuzzyMatcher) (st : Store) (user_query : string)
  : NormalizationResult :=
  let extracted := extract_entities st user_query in
  let normalized := normalize_all matcher st extracted in
  let hints := _build_hints extracted normalized in
  {| original_query := user_query;
     extracted_entities := extracted;
     normalized_entities := normalized;
     normalization_hints := hints |}.

End WithCollaborators.

(** [FuzzyMatcher()] and [QueryNormalizer()] with the default threshold. *)
Definition default_matcher : FuzzyMatcher := {| threshold := SIMILARITY_THRESHOLD |}.

End FuzzyMatching.

(* ===================================================================== *)
(** ** trial_text2sql.py *)
(* ===================================================================== *)

Module TrialText2sql.
Import PyStr PyDict FuzzyMatching.

Definition MAX_RETRIES : nat := 3.
Definition RETRY_DELAY : nat := 2.

(** *** Collaborators and state *)

(** An outcome of [model.generate_content(prompt)] followed by
    [response.text]: an exception, or the text. *)
Inductive llm_reply : Type :=
| Raises
| Replies (text : string).

(** A result row: column name to value. *)
Definition row : Type := dict string.

(** What lies outside the processor during one request.
    - [generate_content n prompt]: the outcome of the call number [n]
      (from 0) to the language model;
    - [explain sql]: whether the dry run [EXPLAIN sql] goes through;
    - [run_query sql]: the rows of [sql], or [None] when execution raises;
    - [execution_ms sql], [total_ms]: what the clock measures;
    - [log_store_up]: whether the inserts of the logger go through. *)
Record World : Type := {
  store : Store;
  generate_content : nat -> string -> llm_reply;
  explain : string -> bool;
  run_query : string -> option (list row);
  execution_ms : string -> Z;
  total_ms : Z;
  log_store_up : bool
}.

(** A row of [search_queries] (its timestamp column left out). *)
Record QueryLogRecord : Type := {
  log_original_query : string;
  log_generated_sql : option string;
  log_results_count : nat;
  log_execution_time_ms : Z;
  log_error_message : option string
}.

(** What a request changes: the calls made to the language model, the
    seconds slept between attempts, and the two log tables. *)
Record State : Type := {
  llm_calls : nat;
  slept : nat;
  search_queries : list QueryLogRecord;
  query_results : list (nat * string)
}.

Definition initial_state : State :=
  {| llm_calls := 0; slept := 0; search_queries := []; query_results := [] |}.

(** Computations that read and change the state. *)
Definition M (A : Type) : Type := State -> A * State.

Definition ret {A : Type} (a : A) : M A := fun s => (a, s).

Definition bind {A B : Type} (m : M A) (k : A -> M B) : M B :=
  fun s => let (a, s') := m s in k a s'.

Notation "x <- m ;; k" := (bind m (fun x => k))
  (at level 61, m at next level, right associativity).
Notation "m ;; k" := (bind m (fun _ => k))
  (at level 61, right associativity).

(** [self.model.generate_content(prompt)] and [response.text]. *)
Definition call_model (w : World) (prompt : string) : M llm_reply :=
  fun s =>
    (generate_content w (llm_calls s) prompt,
     {| llm_calls := S (llm_calls s); slept := slept s;
        search_queries := search_queries s; query_results := query_results s |}).

(** [time.sleep(seconds)]. *)
Definition sleep (seconds : nat) : M unit :=
  fun s =>
    (tt, {| llm_calls := llm_calls s; slept := slept s + seconds;
            search_queries := search_queries s; query_results := query_results s |}).

(** *** SchemaProvider *)

Definition get_schema_context : string := "
# DATABASE SCHEMA

## Table: members
- member_id (TEXT, PRIMARY KEY): Unique identifier
- uri (TEXT, UNIQUE): URI identifier
- first_name (TEXT): Member's first name
- last_name (TEXT): Member's last name
- bio (TEXT): Short bio/description
- title (TEXT): Current or primary title

## Table: experiences
- member_id (TEXT, FOREIGN KEY): References members
- company (TEXT): Company name
- role (TEXT): Job title
- industry (TEXT): Industry classification
- city (TEXT): City of work location
- state (TEXT): State/Province
- country (TEXT): Country
- from_date (DATE): Employment start date
- to_date (DATE): Employment end date (NULL if current)
- is_current (BOOLEAN): Current role indicator
- description (TEXT): Role description

## Table: education
- member_id (TEXT, FOREIGN KEY): References members
- degree (TEXT): Degree type
- institute (TEXT): University/college name
- course (TEXT): Field of study
- from_date (DATE): Start date
- to_date (DATE): End date

## Table: domains
- member_id (TEXT, FOREIGN KEY): References members
- domain_name (TEXT): Domain/area of interest

## Table: content
- member_id (TEXT, FOREIGN KEY): References members
- content_text (TEXT): Member's bio/introduction

# IMPORTANT RULES FOR SQL GENERATION
1. Always use DISTINCT to avoid duplicate members
2. Use LEFT JOIN for experiences/education/domains (some members may not have all)
3. Use exact match for company names: company = '[exact_name]'
4. Use LIKE for text fields with fuzzy values
5. Order results by first_name, last_name
6. Use LIMIT 100 to prevent data overload
7. Write valid SQLite syntax
".

(** *** Text2SQLEngine *)

Definition newline : string := String (ascii_of_nat 10) EmptyString.

(** [Text2SQLEngine._build_entity_context]. *)
Definition _build_entity_context (normalized_entities : dict (dict (list string)))
  : string :=
  if is_nil normalized_entities then "No entities found" else
  let lines :=
    flat_map
      (fun te =>
         let '(entity_type, entities) := te in
         if is_nil entities then [] else
         ("- " ++ title entity_type ++ ":")%string ::
         map (fun om =>
                let matches_str :=
                  join ", " (map (fun m => ("'" ++ m ++ "'")%string) (snd om)) in
                ("  '" ++ fst om ++ "' → [" ++ matches_str ++ "]")%string)
             entities)
      normalized_entities in
  if is_nil lines then "No entities found" else join newline lines.

(** The prompt of [generate_sql]. *)
Definition build_prompt (user_query : string)
  (normalized_entities : dict (dict (list string))) : string :=
  let schema_context := get_schema_context in
  let entity_context := _build_entity_context normalized_entities in
  (schema_context ++ "

# USER QUERY
" ++ user_query ++ "

# NORMALIZED ENTITIES (extracted and fuzzy-matched)
" ++ entity_context ++ "

# INSTRUCTIONS
1. Use the original query to understand user intent
2. Use normalized entities as exact filter values in WHERE clause
3. Generate ONLY valid SQLite SQL query
4. Use DISTINCT to avoid duplicates
5. Include member info and relevant details
6. Order by first_name, last_name
7. Do NOT include explanations or markdown
8. Return only the raw SQL query

# RESPONSE
Generate the SQL query:")%string.

(** The clean-up of the reply: [strip], the two fence removals, [strip]. *)
Definition clean_response (text : string) : string :=
  let sql := strip text in
  strip (replace "```" "" (replace "```sql" "" sql)).

(** [not sql or len(sql) < 10]. *)
Definition too_short (sql : string) : bool :=
  negb (truthy sql) || (String.length sql <? 10).

(** ["SELECT" not in sql.upper()]. *)
Definition missing_select (sql : string) : bool :=
  negb (contains "SELECT" (upper sql)).

(** [Text2SQLEngine.generate_sql]: the recursion on [retry_count] ends
    because the count rises towards [MAX_RETRIES]. *)
Equations? generate_sql (w : World) (user_query : string)
  (normalized_entities : dict (dict (list string))) (retry_count : nat) (s : State)
  : option string * State by wf (MAX_RETRIES - retry_count) lt :=
  generate_sql w user_query normalized_entities retry_count s
    with ge_dec retry_count MAX_RETRIES => {
    | left _ := (None, s);
    | right _
        with call_model w (build_prompt user_query normalized_entities) s => {
        | (Raises, s1) :=
            (* except Exception *)
            generate_sql w user_query normalized_entities (retry_count + 1)
              (snd (sleep RETRY_DELAY s1));
        | (Replies text, s1) with too_short (clean_response text) => {
            | true :=
                generate_sql w user_query normalized_entities (retry_count + 1)
                  (snd (sleep RETRY_DELAY s1));
            | false with missing_select (clean_response text) => {
                | true :=
                    generate_sql w user_query normalized_entities (retry_count + 1)
                      (snd (sleep RETRY_DELAY s1));
                | false := (Some (clean_response text), s1) } } } }.
Proof.
  all: unfold MAX_RETRIES in *; destruct retry_count as [|[|[|k]]]; simpl; lia.
Qed.

(** [Text2SQLEngine.validate_sql]: any failure of the dry run gives
    [False]. *)
Definition validate_sql (w : World) (sql : string) : bool := explain w sql.

(** [Text2SQLEngine.execute_sql]: the rows (or [None]) and the elapsed
    milliseconds. *)
Definition execute_sql (w : World) (sql : string) : option (list row) * Z :=
  (run_query w sql, execution_ms w sql).

(** *** QueryProcessor *)

Record Response : Type := {
  success : bool;
  resp_original_query : string;
  resp_extracted_entities : dict entity_values;
  resp_normalized_entities : dict (dict (list string));
  generated_sql : option string;
  results : list row;
  results_count : nat;
  execution_time_ms : Z;
  total_time_ms : Z;
  error_message : option string
}.

(** [QueryProcessor._failed_response]. *)
Definition _failed_response (user_query : string) (error_message : string)
  : Response :=
  {| success := false;
     resp_original_query := user_query;
     resp_extracted_entities := [];
     resp_normalized_entities := [];
     generated_sql := None;
     results := [];
     results_count := 0;
     execution_time_ms := 0;
     total_time_ms := 0;
     error_message := Some error_message |}.

(** The linkage rows of one logged query: a row per result with a
    non-empty [member_id]. *)
Definition linkage (query_id : nat) (results : list row) : list (nat * string) :=
  flat_map (fun result =>
              match get "member_id" result with
              | Some member_id => if truthy member_id then [(query_id, member_id)] else []
              | None => []
              end) results.

(** [QueryProcessor._log_query]; [results] is [None] when the caller
    leaves it out.  When the log store is down the exception is caught
    and nothing is written. *)
Definition _log_query (w : World) (user_query : string) (sql : option string)
  (execution_time_ms : Z) (error_message : option string)
  (results : option (list row)) : M unit :=
  fun s =>
    if log_store_up w then
      let results_count :=
        match results with Some r => List.length r | None => 0 end in
      let record :=
        {| log_original_query := user_query;
           log_generated_sql := sql;
           log_results_count := results_count;
           log_execution_time_ms := execution_time_ms;
           log_error_message := error_message |} in
      let query_id := S (List.length (search_queries s)) in
      let links :=
        match results with
        | Some ((_ :: _) as r) => linkage query_id r
        | _ => []
        end in
      (tt, {| llm_calls := llm_calls s; slept := slept s;
              search_queries := search_queries s ++ [record];
              query_results := query_results s ++ links |})
    else (tt, s).

(** [QueryProcessor.process_query]. *)
Definition process_query {PS : PySet} {SC : Scorer} (w : World) (user_query : string)
  : M Response :=
  (* Step 1: extract and normalize entities *)
  let normalization_result := normalize_query default_matcher (store w) user_query in
  let extracted_entities := extracted_entities normalization_result in
  let normalized_entities := normalized_entities normalization_result in
  (* Step 2: generate SQL *)
  sql <- generate_sql w user_query normalized_entities 0 ;;
  match sql with
  | None | Some EmptyString =>
      let error_msg := "Failed to generate SQL query" in
      _log_query w user_query None 0 (Some error_msg) None ;;
      ret (_failed_response user_query error_msg)
  | Some sql =>
      (* Step 3: validate SQL *)
      if negb (validate_sql w sql) then
        let error_msg := "Generated SQL is invalid" in
        _log_query w user_query (Some sql) 0 (Some error_msg) None ;;
        ret (_failed_response user_query error_msg)
      else
        (* Step 4: execute SQL *)
        let '(results, execution_time_ms) := execute_sql w sql in
        match results with
        | None =>
            let error_msg := "SQL execution failed" in
            _log_query w user_query (Some sql) execution_time_ms (Some error_msg) None ;;
            ret (_failed_response user_query error_msg)
        | Some results =>
            (* Step 5: log query *)
            _log_query w user_query (Some sql) execution_time_ms None (Some results) ;;
            ret {| success := true;
                   resp_original_query := user_query;
                   resp_extracted_entities := extracted_entities;
                   resp_normalized_entities := normalized_entities;
                   generated_sql := Some sql;
                   results := results;
                   results_count := List.length results;
                   execution_time_ms := execution_time_ms;
                   total_time_ms := total_ms w;
                   error_message := None |}
        end
  end.

End TrialText2sql.

(* ===================================================================== *)
(** ** main.py: the [/query] endpoint *)
(* ===================================================================== *)

Module Main.
Import PyStr PyDict FuzzyMatching TrialText2sql.

(** What the handler of [/query] meets besides the processor's world:
    [construction_error] is the text of the exception raised while the
    processor is built ([None] when it is built), [timestamp] is what
    [datetime.now().isoformat()] gives, and [handler_ms] the milliseconds
    the handler measures when it catches an exception. *)
Record Server : Type := {
  world : World;
  construction_error : option string;
  timestamp : string;
  handler_ms : Z
}.

(** The body of an answer: the keys of the processor's response, as
    options where the handler may put [None], and the timestamp. *)
Record Body : Type := {
  body_success : bool;
  body_original_query : string;
  body_results : list row;
  body_results_count : nat;
  body_extracted_entities : option (dict entity_values);
  body_normalized_entities : option (dict (dict (list string)));
  body_generated_sql : option string;
  body_execution_time_ms : option Z;
  body_total_time_ms : option Z;
  body_timestamp : string;
  body_error_message : option string
}.

(** The handler returns a body or raises an [HTTPException]. *)
Inductive answer : Type :=
| HTTPException (status_code : nat) (detail : string)
| Answer (body : Body).

(** The processor's response with its [timestamp] key added. *)
Definition stamped (response : Response) (now : string) : Body :=
  {| body_success := success response;
     body_original_query := resp_original_query response;
     body_results := results response;
     body_results_count := results_count response;
     body_extracted_entities := Some (resp_extracted_entities response);
     body_normalized_entities := Some (resp_normalized_entities response);
     body_generated_sql := generated_sql response;
     body_execution_time_ms := Some (execution_time_ms response);
     body_total_time_ms := Some (total_time_ms response);
     body_timestamp := now;
     body_error_message := error_message response |}.

(** [search_query]. *)
Definition search_query {PS : PySet} {SC : Scorer} (srv : Server)
  (request_query : string) : M answer :=
  let user_query := strip request_query in
  if negb (truthy user_query) then
    ret (HTTPException 400 "Query cannot be empty")
  else
    match construction_error srv with
    | None =>
        response <- process_query (world srv) user_query ;;
        ret (Answer (stamped response (timestamp srv)))
    | Some e =>
        (* except Exception as e *)
        let error_msg := ("Internal server error: " ++ e)%string in
        ret (Answer
               {| body_success := false;
                  body_original_query := user_query;
                  body_results := [];
                  body_results_count := 0;
                  body_extracted_entities := None;
                  body_normalized_entities := None;
                  body_generated_sql := None;
                  body_execution_time_ms := Some (handler_ms srv);
                  body_total_time_ms := None;
                  body_timestamp := timestamp srv;
                  body_error_message := Some error_msg |})
    end.

End Main.

(* ===================================================================== *)
(** ** ingestion_pipeline.py: locations *)
(* ===================================================================== *)

Module IngestionPipeline.
Import PyStr.

(** [s.split(sep)] for a separator of one character: the pieces between
    the separators, one more than there are separators. *)
Fixpoint split_on (sep : ascii) (s : string) : list string :=
  match s with
  | EmptyString => [EmptyString]
  | String c r =>
      if Ascii.eqb c sep then EmptyString :: split_on sep r
      else
        match split_on sep r with
        | p :: ps => String c p :: ps
        | [] => [String c EmptyString]
        end
  end.

(** [parse_location]: [(city, state, country)]. *)
Definition parse_location (location_str : string)
  : option string * option string * option string :=
  if negb (truthy location_str) then (None, None, None) else
  let parts := map strip (split_on "," location_str) in
  match parts with
  | [city; state; country] => (Some city, Some state, Some country)
  | [city; country] => (Some city, None, Some country)
  | [city] => (Some city, None, None)
  | _ => (None, None, None)
  end.

End IngestionPipeline.

(* ===================================================================== *)
(** ** process_questions.py: error reasons *)
(* ===================================================================== *)

Module ProcessQuestions.
Import PyStr.



End ProcessQuestions.

(* ===================================================================== *)
(** ** Statements of the specification, in its own words *)
(* ===================================================================== *)

Import PyStr PyDict FuzzyMatching TrialText2sql.

(** Text of ASCII characters only.  On such text the classes of
    characters, the case mappings and the whitespace of the embedding
    are those of Python. *)
Definition ascii_text (s : string) : bool :=
  forallb (fun c => code c <? 128) (list_ascii_of_string s).






(** Vocabulary retrieval fails: no connection, or one of the eight
    queries raises, or the release of the connection does. *)
Definition retrieval_fails (st : Store) : Prop :=
  connect st = false \/
  (exists key, In key entity_types /\ select_distinct st key = None) \/
  release st = false.

(** The three stages of the processor that can fail a request, and the
    message each one is reported with. *)
Inductive stage : Type :=
| Generation
| Validation
| Execution.

Definition failure_message (f : stage) : string :=
  match f with
  | Generation => "Failed to generate SQL query"
  | Validation => "Generated SQL is invalid"
  | Execution => "SQL execution failed"
  end.

(** The request for [user_query], started in state [s] of world [w],
    fails at stage [f]. *)
Definition fails_at {PS : PySet} {SC : Scorer} (w : World) (user_query : string)
  (s : State) (f : stage) : Prop :=
  let normalized :=
    normalized_entities (normalize_query default_matcher (store w) user_query) in
  let sql := fst (generate_sql w user_query normalized 0 s) in
  match f with
  | Generation => sql = None
  | Validation => exists text, sql = Some text /\ validate_sql w text = false
  | Execution =>
      exists text, sql = Some text /\ validate_sql w text = true /\
                   fst (execute_sql w text) = None
  end.

(** Shape validation of a text: non-empty, at least ten characters, and
    containing [SELECT] in any casing. *)
Definition passes_shape (text : string) : bool :=
  negb (too_short text) && negb (missing_select text).

(** Attempt number [n] of the language model fails: the call raises, or
    its cleaned text is rejected. *)
Definition attempt_fails (w : World) (user_query : string)
  (normalized : dict (dict (list string))) (n : nat) : Prop :=
  match generate_content w n (build_prompt user_query normalized) with
  | Raises => True
  | Replies text => passes_shape (clean_response text) = false
  end.

(** *** Sample collaborators *)

Definition empty_store : Store :=
  {| connect := true; select_distinct := fun _ => Some []; release := true |}.

Definition unreachable_store : Store :=
  {| connect := false; select_distinct := fun _ => Some ["Stripe"]; release := true |}.

(** A store whose vocabulary has values under one context key only. *)
Definition store_with (key : string) (values : list string) : Store :=
  {| connect := true;
     select_distinct := fun k => if String.eqb k key then Some values else Some [];
     release := true |}.

(** A stand-in scorer: 100 when the query occurs in the choice, 0
    otherwise. *)
Definition containment_score : Scorer.
Proof.
  refine {| score := fun query choice =>
                       if contains query choice then 100%Z else 0%Z |}.
  intros query choice. destruct (contains query choice); lia.
Defined.

(** A stand-in scorer with two grades: 100 for the query itself, 80 for
    a choice that contains it, 0 otherwise. *)
Definition graded_score : Scorer.
Proof.
  refine {| score := fun query choice =>
                       if String.eqb query choice then 100%Z
                       else if contains query choice then 80%Z else 0%Z |}.
  intros query choice.
  destruct (String.eqb query choice); [lia|].
  destruct (contains query choice); lia.
Defined.


(** The values [match_entity] collects before the final set. *)
Definition matched_values {SC : Scorer} (self : FuzzyMatcher) (user_input : string)
  (db_values : list string) : list string :=
  flat_map (fun ms => let '(match_, score_) := ms in
                      if (threshold self <=? score_)%Z
                      then [get_or (lower match_) match_
                              (of_pairs (map (fun v => (lower v, v)) db_values))]
                      else [])
           (process_extract (lower user_input) (map lower db_values) 10).







(** A world around a given language model, validator and executor. *)
Definition sample_world (replies : nat -> llm_reply) (valid : bool)
  (rows : option (list row)) : World :=
  {| store := empty_store;
     generate_content := fun n _ => replies n;
     explain := fun _ => valid;
     run_query := fun _ => rows;
     execution_ms := fun _ => 12%Z;
     total_ms := 40%Z;
     log_store_up := true |}.

Definition fenced_text : string := "```sql
SELECT * FROM members
```".


(** Two exceptions, then the given text. *)
Definition third_time (text : string) (n : nat) : llm_reply :=
  match n with
  | 0 | 1 => Raises
  | _ => Replies text
  end.

(** The world [w] around another store. *)
Definition with_store (st : Store) (w : World) : World :=
  {| store := st;
     generate_content := generate_content w;
     explain := explain w;
     run_query := run_query w;
     execution_ms := execution_ms w;
     total_ms := total_ms w;
     log_store_up := log_store_up w |}.

(** The world [w] with its log store up or down. *)
Definition with_log_store (up : bool) (w : World) : World :=
  {| store := store w;
     generate_content := generate_content w;
     explain := explain w;
     run_query := run_query w;
     execution_ms := execution_ms w;
     total_ms := total_ms w;
     log_store_up := up |}.

(** A server around a world, whose processor is built without error. *)
Definition sample_server (w : World) : Main.Server :=
  {| Main.world := w;
     Main.construction_error := None;
     Main.timestamp := "2025-01-01T00:00:00";
     Main.handler_ms := 0%Z |}.

(** Every character of [s] is whitespace. *)
Definition blank (s : string) : bool := forallb is_space (list_ascii_of_string s).

(** The number of occurrences of the character [c] in [s]. *)
Fixpoint count_char (c : ascii) (s : string) : nat :=
  match s with
  | EmptyString => 0
  | String a r => (if Ascii.eqb a c then 1 else 0) + count_char c r
  end.

(** [s] neither starts nor ends with whitespace (the empty string
    included). *)
Definition trimmed (s : string) : Prop :=
  (forall c r, s = String c r -> is_space c = false) /\
  (forall c, last_char s = Some c -> is_space c = false).

(* ===================================================================== *)
(** ** Facts about the text primitives *)
(* ===================================================================== *)

Section TextFacts.

Lemma drop_length (n : nat) (s : string) :
  String.length (drop n s) <= String.length s.
Proof.
  revert s. induction n as [|n IH]; intros [|a t]; simpl; try lia.
  specialize (IH t). lia.
Qed.

Lemma code_ascii_of_nat (n : nat) : n < 256 -> code (ascii_of_nat n) = n.
Proof. intros H. unfold code. now apply nat_ascii_embedding. Qed.

Lemma code_bound (c : ascii) : code c < 256.
Proof. unfold code. apply nat_ascii_bounded. Qed.

Lemma in_range_iff (lo hi : nat) (c : ascii) :
  in_range lo hi c = true <-> lo <= code c <= hi.
Proof.
  unfold in_range. rewrite andb_true_iff, !Nat.leb_le. tauto.
Qed.

Lemma lower_char_not_upper (c : ascii) : is_upper (lower_char c) = false.
Proof.
  unfold lower_char. destruct (is_upper c) eqn:E; [|exact E].
  apply in_range_iff in E. unfold is_upper.
  apply not_true_is_false. intros H. apply in_range_iff in H.
  rewrite code_ascii_of_nat in H; lia.
Qed.

Lemma lower_char_idem (c : ascii) : lower_char (lower_char c) = lower_char c.
Proof.
  unfold lower_char at 1. now rewrite lower_char_not_upper.
Qed.

Lemma lower_idem (s : string) : lower (lower s) = lower s.
Proof.
  induction s as [|c r IH]; simpl; [reflexivity|].
  now rewrite lower_char_idem, IH.
Qed.

Lemma truthy_lower (s : string) : truthy (lower s) = truthy s.
Proof. destruct s; reflexivity. Qed.

Lemma truthy_true_iff (s : string) : truthy s = true <-> s <> EmptyString.
Proof. destruct s; simpl; split; congruence. Qed.

Lemma lstrip_length (s : string) : String.length (lstrip s) <= String.length s.
Proof.
  induction s as [|c r IH]; simpl; [lia|].
  destruct (is_space c); simpl; lia.
Qed.

Lemma rstrip_length (s : string) : String.length (rstrip s) <= String.length s.
Proof.
  induction s as [|c r IH]; simpl; [lia|].
  destruct (rstrip r) eqn:E.
  - destruct (is_space c); simpl; lia.
  - simpl in *. lia.
Qed.

Lemma strip_length (s : string) : String.length (strip s) <= String.length s.
Proof.
  unfold strip. pose proof (rstrip_length (lstrip s)). pose proof (lstrip_length s). lia.
Qed.

Lemma replace_empty_length (old s : string) :
  String.length (replace old EmptyString s) <= String.length s.
Proof.
  funelim (replace old EmptyString s); simp replace; simpl.
  - lia.
  - pose proof (drop_length (String.length old - 1) r) as Hd.
    match goal with IH : String.length (replace _ _ _) <= _ |- _ => lia end.
  - match goal with IH : String.length (replace _ _ _) <= _ |- _ => lia end.
Qed.

End TextFacts.

(* ===================================================================== *)
(** ** SQL synthesis with bounded retry *)
(* ===================================================================== *)

Section SynthesisFacts.
Variable w : World.
Variable user_query : string.
Variable normalized : dict (dict (list string)).

Lemma generate_sql_step (retry_count : nat) (s : State) :
  generate_sql w user_query normalized retry_count s =
  if MAX_RETRIES <=? retry_count then (None, s) else
  let s1 := snd (call_model w (build_prompt user_query normalized) s) in
  let retry :=
    generate_sql w user_query normalized (retry_count + 1)
      (snd (sleep RETRY_DELAY s1)) in
  match generate_content w (llm_calls s) (build_prompt user_query normalized) with
  | Raises => retry
  | Replies text =>
      if too_short (clean_response text) then retry
      else if missing_select (clean_response text) then retry
      else (Some (clean_response text), s1)
  end.
Proof.
  simp generate_sql.
  destruct (Nat.leb_spec MAX_RETRIES retry_count) as [Hle|Hgt];
    destruct (ge_dec retry_count MAX_RETRIES) as [Hge|Hlt]; try lia.
  - reflexivity.
  - cbn [generate_sql_clause_1].
    unfold generate_sql_unfold_clause_1, call_model. cbn [snd].
    destruct (generate_content w (llm_calls s) (build_prompt user_query normalized))
      as [|text]; cbn.
    + reflexivity.
    + destruct (too_short (clean_response text)); cbn; [reflexivity|].
      destruct (missing_select (clean_response text)); reflexivity.
Qed.

Lemma generate_sql_failed_attempt (retry_count : nat) (s : State) :
  retry_count < MAX_RETRIES ->
  attempt_fails w user_query normalized (llm_calls s) ->
  generate_sql w user_query normalized retry_count s =
  generate_sql w user_query normalized (retry_count + 1)
    (snd (sleep RETRY_DELAY (snd (call_model w (build_prompt user_query normalized) s)))).
Proof.
  intros Hlt Hfail. rewrite (generate_sql_step retry_count).
  destruct (Nat.leb_spec MAX_RETRIES retry_count); [lia|].
  unfold attempt_fails, passes_shape in Hfail. cbv zeta.
  destruct (generate_content w (llm_calls s) (build_prompt user_query normalized))
    as [|text]; [reflexivity|].
  destruct (too_short (clean_response text)); [reflexivity|].
  destruct (missing_select (clean_response text)); [reflexivity|discriminate].
Qed.


(** When every attempt still allowed fails, the answer is [None] and the
    model has been called once per attempt. *)
Lemma generate_sql_all_fail (budget : nat) :
  forall (retry_count : nat) (s : State),
    retry_count + budget = MAX_RETRIES ->
    (forall n, llm_calls s <= n < llm_calls s + budget -> attempt_fails w user_query normalized n) ->
    generate_sql w user_query normalized retry_count s =
    (None, {| llm_calls := llm_calls s + budget;
              slept := slept s + budget * RETRY_DELAY;
              search_queries := search_queries s;
              query_results := query_results s |}).
Proof.
  induction budget as [|budget IH]; intros retry_count s Hsum Hfail.
  - rewrite (generate_sql_step retry_count).
    destruct (Nat.leb_spec MAX_RETRIES retry_count); [|lia].
    destruct s; cbn. now rewrite !Nat.add_0_r.
  - rewrite generate_sql_failed_attempt by (try apply Hfail; lia).
    rewrite IH.
    + cbn. f_equal. f_equal; unfold RETRY_DELAY; lia.
    + lia.
    + cbn. intros n Hn. apply Hfail. lia.
Qed.

(** Whatever the model does, at most [MAX_RETRIES - retry_count] calls are
    made, and the log tables are left alone. *)
Lemma generate_sql_effects (budget : nat) :
  forall (retry_count : nat) (s : State),
    MAX_RETRIES - retry_count <= budget ->
    let s' := snd (generate_sql w user_query normalized retry_count s) in
    llm_calls s <= llm_calls s' <= llm_calls s + (MAX_RETRIES - retry_count) /\
    search_queries s' = search_queries s /\
    query_results s' = query_results s.
Proof.
  induction budget as [|budget IH]; intros retry_count s Hb; cbv zeta;
    rewrite (generate_sql_step retry_count);
    destruct (Nat.leb_spec MAX_RETRIES retry_count) as [Hle|Hgt]; cbn [snd];
    try lia; try (repeat split; lia).
  cbv zeta.
  assert (Hretry :
    let s' := snd (generate_sql w user_query normalized (retry_count + 1)
                (snd (sleep RETRY_DELAY
                   (snd (call_model w (build_prompt user_query normalized) s))))) in
    llm_calls s <= llm_calls s' <= llm_calls s + (MAX_RETRIES - retry_count) /\
    search_queries s' = search_queries s /\ query_results s' = query_results s).
  { cbv zeta. edestruct (IH (retry_count + 1)) as (H1 & H2 & H3); [lia|].
    rewrite H2, H3. cbn [llm_calls search_queries query_results snd sleep call_model] in H1 |- *.
    repeat split; lia. }
  cbv zeta in Hretry.
  destruct (generate_content w (llm_calls s) (build_prompt user_query normalized))
    as [|text]; [exact Hretry|].
  destruct (too_short (clean_response text)); [exact Hretry|].
  destruct (missing_select (clean_response text)); [exact Hretry|].
  cbn [llm_calls search_queries query_results snd call_model]. repeat split; lia.
Qed.

(** A text that [generate_sql] returns has passed shape validation. *)
Lemma generate_sql_returns_shaped (budget : nat) :
  forall (retry_count : nat) (s : State) (sql : string),
    MAX_RETRIES - retry_count <= budget ->
    fst (generate_sql w user_query normalized retry_count s) = Some sql ->
    passes_shape sql = true.
Proof.
  induction budget as [|budget IH]; intros retry_count s sql Hb;
    rewrite (generate_sql_step retry_count);
    destruct (Nat.leb_spec MAX_RETRIES retry_count) as [Hle|Hgt]; cbn [fst];
    try lia; try discriminate.
  cbv zeta.
  assert (Hretry : forall s1,
    fst (generate_sql w user_query normalized (retry_count + 1) s1) = Some sql ->
    passes_shape sql = true).
  { intros s1. apply IH. lia. }
  destruct (generate_content w (llm_calls s) (build_prompt user_query normalized))
    as [|text]; [apply Hretry|].
  destruct (too_short (clean_response text)) eqn:E1; [apply Hretry|].
  destruct (missing_select (clean_response text)) eqn:E2; [apply Hretry|].
  cbn. intros [= <-]. unfold passes_shape. now rewrite E1, E2.
Qed.

Lemma clean_response_length (text : string) :
  String.length (clean_response text) <= String.length text.
Proof.
  unfold clean_response.
  pose proof (strip_length text).
  pose proof (replace_empty_length "```sql" (strip text)).
  pose proof (replace_empty_length "```" (replace "```sql" "" (strip text))).
  pose proof (strip_length (replace "```" "" (replace "```sql" "" (strip text)))).
  lia.
Qed.

End SynthesisFacts.

(** C3. When every call of the language model returns a text shorter than
    ten characters, [generate_sql] returns [None] (the failure signal, a
    value and not an exception) and the model has been called exactly
    [MAX_RETRIES] times, with one pause per failed attempt. *)
Theorem generate_sql_exhaustion (w : World) (user_query : string)
  (normalized : dict (dict (list string))) (s : State) :
  (forall n prompt, exists text,
      generate_content w n prompt = Replies text /\ String.length text < 10) ->
  generate_sql w user_query normalized 0 s =
  (None, {| llm_calls := llm_calls s + MAX_RETRIES;
            slept := slept s + MAX_RETRIES * RETRY_DELAY;
            search_queries := search_queries s;
            query_results := query_results s |}).
Proof.
  intros Hshort. apply generate_sql_all_fail; [reflexivity|].
  intros n _. unfold attempt_fails.
  destruct (Hshort n (build_prompt user_query normalized)) as (text & -> & Hlen).
  unfold passes_shape, too_short.
  pose proof (clean_response_length text) as Hclean.
  destruct (Nat.ltb_spec (String.length (clean_response text)) 10) as [_|Hge]; [|lia].
  now rewrite orb_true_r.
Qed.

Lemma generate_sql_exhaustion_witness :
  generate_sql (sample_world (fun _ => Replies "SELECT 1") true (Some [])) "Who?" []
    0 initial_state =
  (None, {| llm_calls := 3; slept := 6; search_queries := []; query_results := [] |}).
Proof.
  apply (generate_sql_exhaustion
           (sample_world (fun _ => Replies "SELECT 1") true (Some [])) "Who?" []
           initial_state).
  intros n prompt. exists "SELECT 1". split; [reflexivity|simpl; lia].
Defined.




(* ===================================================================== *)
(** ** The query processor *)
(* ===================================================================== *)

Section ProcessorFacts.
Context {PS : PySet} {SC : Scorer}.
Variable w : World.
Variable user_query : string.

Let normalized : dict (dict (list string)) :=
  normalized_entities (normalize_query default_matcher (store w) user_query).

Lemma shaped_not_empty (sql : string) :
  passes_shape sql = true -> exists c r, sql = String c r.
Proof.
  unfold passes_shape, too_short. destruct sql as [|c r]; [discriminate|eauto].
Qed.

(** The outcome of a request, by the stage that stops it. *)
Lemma process_query_generation_fails (s : State) :
  fst (generate_sql w user_query normalized 0 s) = None ->
  process_query w user_query s =
  (_failed_response user_query (failure_message Generation),
   snd (_log_query w user_query None 0 (Some (failure_message Generation)) None
          (snd (generate_sql w user_query normalized 0 s)))).
Proof.
  intros Hgen. unfold process_query, bind. fold normalized.
  destruct (generate_sql w user_query normalized 0 s) as [sql s1].
  cbn [fst snd] in *. subst sql. cbn [failure_message].
  destruct (_log_query w user_query None 0 (Some "Failed to generate SQL query") None s1).
  reflexivity.
Qed.

Lemma process_query_validation_fails (s : State) (sql : string) :
  fst (generate_sql w user_query normalized 0 s) = Some sql ->
  validate_sql w sql = false ->
  process_query w user_query s =
  (_failed_response user_query (failure_message Validation),
   snd (_log_query w user_query (Some sql) 0 (Some (failure_message Validation)) None
          (snd (generate_sql w user_query normalized 0 s)))).
Proof.
  intros Hgen Hval.
  destruct (shaped_not_empty sql) as (c & r & ->).
  { eapply generate_sql_returns_shaped; [reflexivity|exact Hgen]. }
  unfold process_query, bind. fold normalized.
  destruct (generate_sql w user_query normalized 0 s) as [sql' s1].
  cbn [fst snd] in *. subst sql'. rewrite Hval. cbn [negb failure_message].
  destruct (_log_query w user_query (Some (String c r)) 0
              (Some "Generated SQL is invalid") None s1).
  reflexivity.
Qed.

Lemma process_query_execution_fails (s : State) (sql : string) :
  fst (generate_sql w user_query normalized 0 s) = Some sql ->
  validate_sql w sql = true ->
  fst (execute_sql w sql) = None ->
  process_query w user_query s =
  (_failed_response user_query (failure_message Execution),
   snd (_log_query w user_query (Some sql) (execution_ms w sql)
          (Some (failure_message Execution)) None
          (snd (generate_sql w user_query normalized 0 s)))).
Proof.
  intros Hgen Hval Hrun.
  destruct (shaped_not_empty sql) as (c & r & ->).
  { eapply generate_sql_returns_shaped; [reflexivity|exact Hgen]. }
  unfold process_query, bind. fold normalized.
  destruct (generate_sql w user_query normalized 0 s) as [sql' s1].
  cbn [fst snd] in *. subst sql'. rewrite Hval. cbn [negb failure_message].
  unfold execute_sql in *. cbn [fst] in Hrun. rewrite Hrun.
  destruct (_log_query w user_query (Some (String c r)) (execution_ms w (String c r))
              (Some "SQL execution failed") None s1).
  reflexivity.
Qed.

Lemma process_query_succeeds (s : State) (sql : string) (rows : list row) :
  fst (generate_sql w user_query normalized 0 s) = Some sql ->
  validate_sql w sql = true ->
  fst (execute_sql w sql) = Some rows ->
  success (fst (process_query w user_query s)) = true.
Proof.
  intros Hgen Hval Hrun.
  destruct (shaped_not_empty sql) as (c & r & ->).
  { eapply generate_sql_returns_shaped; [reflexivity|exact Hgen]. }
  unfold process_query, bind. fold normalized.
  destruct (generate_sql w user_query normalized 0 s) as [sql' s1].
  cbn [fst snd] in *. subst sql'. rewrite Hval. cbn [negb].
  unfold execute_sql in *. cbn [fst] in Hrun. rewrite Hrun.
  destruct (_log_query w user_query (Some (String c r)) (execution_ms w (String c r))
              None (Some rows) s1).
  reflexivity.
Qed.

(** A response that is not a success comes from a stage that failed. *)
Lemma failure_has_a_stage (s : State) :
  success (fst (process_query w user_query s)) = false ->
  exists f, fails_at w user_query s f.
Proof.
  intros Hfail. unfold fails_at. fold normalized.
  destruct (fst (generate_sql w user_query normalized 0 s)) as [sql|] eqn:Hgen;
    [|exists Generation; reflexivity].
  destruct (validate_sql w sql) eqn:Hval;
    [|exists Validation; eauto].
  destruct (fst (execute_sql w sql)) as [rows|] eqn:Hrun;
    [|exists Execution; eauto].
  rewrite (process_query_succeeds s sql rows) in Hfail by assumption. discriminate.
Qed.

End ProcessorFacts.

(** C1. Whenever a stage of the pipeline fails (generation exhausted,
    validation rejected, execution failed), [process_query] returns the
    failure response: [success] is false, [results_count] is 0, [results]
    is empty, and [error_message] is the message of that stage, one of the
    three defined messages. *)
Theorem process_query_failure_shape {PS : PySet} {SC : Scorer} (w : World)
  (user_query : string) (s : State) (f : stage) :
  fails_at w user_query s f ->
  let r := fst (process_query w user_query s) in
  success r = false /\ results_count r = 0 /\ results r = [] /\
  error_message r = Some (failure_message f) /\
  In (failure_message f)
     ["Failed to generate SQL query"; "Generated SQL is invalid"; "SQL execution failed"].
Proof.
  intros Hf r.
  assert (Hr : r = _failed_response user_query (failure_message f)).
  { subst r. destruct f; cbn [fails_at] in Hf.
    - now rewrite process_query_generation_fails.
    - destruct Hf as (sql & Hgen & Hval).
      now rewrite (process_query_validation_fails w user_query s sql).
    - destruct Hf as (sql & Hgen & Hval & Hrun).
      now rewrite (process_query_execution_fails w user_query s sql). }
  rewrite Hr. cbn [_failed_response success results_count results error_message].
  repeat split. destruct f; cbn; auto.
Qed.

Lemma process_query_failure_shape_witness :
  let r := fst (@process_query first_seen_order containment_score
                  (sample_world (fun _ => Replies "SELECT * FROM members") false (Some []))
                  "Who?" initial_state) in
  success r = false /\ results_count r = 0 /\ results r = [] /\
  error_message r = Some "Generated SQL is invalid" /\
  In "Generated SQL is invalid"
     ["Failed to generate SQL query"; "Generated SQL is invalid"; "SQL execution failed"].
Proof.
  apply (@process_query_failure_shape first_seen_order containment_score
           (sample_world (fun _ => Replies "SELECT * FROM members") false (Some []))
           "Who?" initial_state Validation).
  exists "SELECT * FROM members". split; reflexivity.
Defined.

Section FailureLogFacts.
Context {PS : PySet} {SC : Scorer}.
Variable w : World.
Variable user_query : string.

(** A request that fails after generation has the same outcome around
    any store for which generation gives the same text: the entities
    computed from the store reach the outcome through the prompt only. *)
Lemma failure_through_generation_only (s : State) (f : stage) (st : Store) :
  f = Validation \/ f = Execution ->
  fails_at w user_query s f ->
  generate_sql (with_store st w) user_query
    (normalized_entities (normalize_query default_matcher st user_query)) 0 s =
  generate_sql w user_query
    (normalized_entities (normalize_query default_matcher (store w) user_query)) 0 s ->
  process_query (with_store st w) user_query s = process_query w user_query s.
Proof.
  intros Hstage Hf Hgen.
  destruct Hstage as [-> | ->]; cbn [fails_at] in Hf.
  - destruct Hf as (sql & Hsql & Hval).
    rewrite (process_query_validation_fails w user_query s sql Hsql Hval).
    rewrite (process_query_validation_fails (with_store st w) user_query s sql).
    + cbn [store with_store]. rewrite Hgen. reflexivity.
    + cbn [store with_store]. now rewrite Hgen.
    + exact Hval.
  - destruct Hf as (sql & Hsql & Hval & Hrun).
    rewrite (process_query_execution_fails w user_query s sql Hsql Hval Hrun).
    rewrite (process_query_execution_fails (with_store st w) user_query s sql).
    + cbn [store with_store]. rewrite Hgen. reflexivity.
    + cbn [store with_store]. now rewrite Hgen.
    + exact Hval.
    + exact Hrun.
Qed.

End FailureLogFacts.

(** C9, as the code has it.  When a request fails at validation or at
    execution, the response carries none of the work done so far:
    [generated_sql] is [None], both times are 0 and both entity maps are
    empty, the response being the failure response of the query and of
    the stage's message.  The logger is called with the query, the SQL text, a time and
    the message of the stage, and with nothing else: the time is the
    literal 0 at validation, where nothing has been measured, and the
    measured time at execution.  So the log gets one row with these
    values when its store is up and none when it is down, and no linkage
    row.  The computed entities go neither to the response nor to the
    logger: around any other store, whatever entities it gives, the
    request has the same response and leaves the same state as soon as
    generation gives the same text. *)
Theorem failure_response_discards_work {PS : PySet} {SC : Scorer} (w : World)
  (user_query : string) (s : State) (f : stage) :
  f = Validation \/ f = Execution ->
  fails_at w user_query s f ->
  let computed := normalize_query default_matcher (store w) user_query in
  let generated := generate_sql w user_query (normalized_entities computed) 0 s in
  let r := fst (process_query w user_query s) in
  let s' := snd (process_query w user_query s) in
  (generated_sql r = None /\ execution_time_ms r = 0%Z /\ total_time_ms r = 0%Z /\
   resp_extracted_entities r = [] /\ resp_normalized_entities r = []) /\
  r = _failed_response user_query (failure_message f) /\
  (exists sql,
    fst generated = Some sql /\
    let elapsed := match f with Execution => execution_ms w sql | _ => 0%Z end in
    s' = snd (_log_query w user_query (Some sql) elapsed (Some (failure_message f)) None
                (snd generated)) /\
    (log_store_up w = true ->
     search_queries s' =
     (search_queries s ++
       [{| log_original_query := user_query;
           log_generated_sql := Some sql;
           log_results_count := 0;
           log_execution_time_ms := elapsed;
           log_error_message := Some (failure_message f) |}])%list) /\
    (log_store_up w = false -> search_queries s' = search_queries s) /\
    query_results s' = query_results s) /\
  (forall st : Store,
     generate_sql (with_store st w) user_query
       (normalized_entities (normalize_query default_matcher st user_query)) 0 s =
     generated ->
     process_query (with_store st w) user_query s = process_query w user_query s).
Proof.
  intros Hstage Hf computed generated r s'.
  destruct (generate_sql_effects w user_query (normalized_entities computed)
              MAX_RETRIES 0 s) as (_ & Hsq & Hqr); [lia|].
  fold generated in Hsq, Hqr.
  assert (Hlog : forall sql elapsed,
    let s2 := snd (_log_query w user_query (Some sql) elapsed
                     (Some (failure_message f)) None (snd generated)) in
    (log_store_up w = true ->
     search_queries s2 =
     (search_queries s ++
       [{| log_original_query := user_query;
           log_generated_sql := Some sql;
           log_results_count := 0;
           log_execution_time_ms := elapsed;
           log_error_message := Some (failure_message f) |}])%list) /\
    (log_store_up w = false -> search_queries s2 = search_queries s) /\
    query_results s2 = query_results s).
  { intros sql elapsed s2. subst s2. unfold _log_query.
    destruct (log_store_up w); cbn [snd search_queries query_results];
      rewrite ?Hsq, ?Hqr, ?app_nil_r; repeat split; congruence. }
  assert (Hr : r = _failed_response user_query (failure_message f)).
  { subst r. destruct Hstage as [-> | ->]; cbn [fails_at] in Hf.
    - destruct Hf as (sql & Hgen & Hval).
      now rewrite (process_query_validation_fails w user_query s sql Hgen Hval).
    - destruct Hf as (sql & Hgen & Hval & Hrun).
      now rewrite (process_query_execution_fails w user_query s sql Hgen Hval Hrun). }
  split; [rewrite Hr; repeat split|]. split; [exact Hr|]. clear Hr. split.
  - subst s'. destruct Hstage as [-> | ->]; cbn [fails_at] in Hf.
    + destruct Hf as (sql & Hgen & Hval). exists sql. split; [exact Hgen|].
      rewrite (process_query_validation_fails w user_query s sql Hgen Hval).
      cbn [snd]. split; [reflexivity|]. apply Hlog.
    + destruct Hf as (sql & Hgen & Hval & Hrun). exists sql. split; [exact Hgen|].
      rewrite (process_query_execution_fails w user_query s sql Hgen Hval Hrun).
      cbn [snd]. split; [reflexivity|]. apply Hlog.
  - intros st Hgen. now apply (failure_through_generation_only w user_query s f st).
Qed.

Lemma failure_response_discards_work_witness :
  let w := sample_world (fun _ => Replies "SELECT * FROM members") true None in
  let r := fst (@process_query first_seen_order containment_score w "Who?" initial_state) in
  let s' := snd (@process_query first_seen_order containment_score w "Who?" initial_state) in
  (generated_sql r = None /\ execution_time_ms r = 0%Z /\ total_time_ms r = 0%Z /\
   resp_extracted_entities r = [] /\ resp_normalized_entities r = []) /\
  search_queries s' =
    [{| log_original_query := "Who?";
        log_generated_sql := Some "SELECT * FROM members";
        log_results_count := 0;
        log_execution_time_ms := 12%Z;
        log_error_message := Some "SQL execution failed" |}].
Proof.
  intros w r s'.
  destruct (@failure_response_discards_work first_seen_order containment_score
              w "Who?" initial_state Execution)
    as (Hresp & _ & (sql & Hsql & _ & Hlog & _) & _).
  - right. reflexivity.
  - exists "SELECT * FROM members". repeat split; reflexivity.
  - split; [exact Hresp|].
    assert (Hsame : sql = "SELECT * FROM members")
      by (vm_compute in Hsql; injection Hsql as Hs; symmetry; exact Hs).
    subst sql. exact (Hlog eq_refl).
Defined.

(** C9, as the specification words it, fails at a validation failure.
    The entities of the query are computed (a company with its
    candidates, and a year), the clock would give 12 ms to the SQL, and
    the request leaves one model call and one log row: the row holds the
    query, the SQL, the count 0, the time 0 and the message, and no
    entity.  Against a store without vocabulary, where no company is
    computed, the request leaves the very same state. *)
Lemma validation_failure_logs_neither_time_nor_entities :
  let blind := sample_world (fun _ => Replies "SELECT * FROM members") false (Some []) in
  let w := with_store (store_with "companies" ["Stripe"]) blind in
  let q := "Who worked at Stripe in 2015?" in
  let computed :=
    @normalize_query first_seen_order containment_score default_matcher (store w) q in
  let s' := snd (@process_query first_seen_order containment_score w q initial_state) in
  (get "companies" (extracted_entities computed) = Some (Strs ["Stripe"]) /\
   get "years" (extracted_entities computed) = Some (Ints [2015%Z]) /\
   get "companies" (normalized_entities computed)
     = Some [("Stripe", ["Stripe"; "Stripe"])]) /\
  execution_ms w "SELECT * FROM members" = 12%Z /\
  s' = {| llm_calls := 1; slept := 0;
          search_queries :=
            [{| log_original_query := q;
                log_generated_sql := Some "SELECT * FROM members";
                log_results_count := 0;
                log_execution_time_ms := 0%Z;
                log_error_message := Some "Generated SQL is invalid" |}];
          query_results := [] |} /\
  get "companies"
    (extracted_entities
       (@normalize_query first_seen_order containment_score default_matcher
          (store blind) q)) = Some (Strs []) /\
  snd (@process_query first_seen_order containment_score blind q initial_state) = s'.
Proof.
  repeat split; vm_compute; reflexivity.
Qed.

(* ===================================================================== *)
(** ** Facts about dictionaries and sets *)
(* ===================================================================== *)

Section DictFacts.
Context {V : Type}.

Lemma get_set (k k' : string) (v : V) (d : dict V) :
  get k (set k' v d) = if String.eqb k k' then Some v else get k d.
Proof.
  induction d as [|[k0 v0] r IH]; simpl.
  - reflexivity.
  - destruct (String.eqb_spec k' k0) as [->|Hne]; simpl.
    + destruct (String.eqb_spec k k0); reflexivity.
    + destruct (String.eqb_spec k k0) as [->|Hne'].
      * destruct (String.eqb_spec k0 k'); [congruence|reflexivity].
      * exact IH.
Qed.

Lemma get_In (k : string) (v : V) (d : dict V) : get k d = Some v -> In (k, v) d.
Proof.
  induction d as [|[k0 v0] r IH]; simpl; [discriminate|].
  destruct (String.eqb_spec k k0) as [->|Hne].
  - intros [= ->]. now left.
  - intros H. right. auto.
Qed.

(** A dict built from the values of a list, each under a key computed
    from it: what a key holds is a value of the list with that key, and
    every value of the list finds its key taken. *)
Lemma keyed_fold_get (f : V -> string) (l : list V) :
  forall (d : dict V) (k : string) (x : V),
    get k (fold_left (fun d kv => set (fst kv) (snd kv) d)
                     (map (fun v => (f v, v)) l) d) = Some x ->
    (In x l /\ f x = k) \/ get k d = Some x.
Proof.
  induction l as [|v l IH]; intros d k x; simpl; [auto|].
  intros H. apply IH in H as [[Hin Hk]|H]; [auto|].
  rewrite get_set in H. destruct (String.eqb_spec k (f v)) as [->|Hne]; [|auto].
  injection H as <-. auto.
Qed.

Lemma keyed_fold_mem (f : V -> string) (l : list V) :
  forall (d : dict V) (k : string),
    (exists v, In v l /\ f v = k) \/ (exists x, get k d = Some x) ->
    exists x, get k (fold_left (fun d kv => set (fst kv) (snd kv) d)
                               (map (fun v => (f v, v)) l) d) = Some x.
Proof.
  induction l as [|v l IH]; intros d k; simpl.
  - intros [(v & [] & _)|H]; exact H.
  - intros H. apply IH.
    destruct (String.eqb_spec k (f v)) as [->|Hne].
    + right. exists v. rewrite get_set. now rewrite String.eqb_refl.
    + destruct H as [(v' & [<-|Hin] & Hk)|(x & Hx)].
      * congruence.
      * left. eauto.
      * right. exists x. rewrite get_set.
        destruct (String.eqb_spec k (f v)); [congruence|exact Hx].
Qed.

Lemma of_pairs_keyed_get (f : V -> string) (l : list V) (k : string) (x : V) :
  get k (of_pairs (map (fun v => (f v, v)) l)) = Some x -> In x l /\ f x = k.
Proof.
  unfold of_pairs. intros H. apply keyed_fold_get in H as [H|H]; [exact H|discriminate].
Qed.

Lemma of_pairs_keyed_mem (f : V -> string) (l : list V) (v : V) :
  In v l -> exists x, get (f v) (of_pairs (map (fun v => (f v, v)) l)) = Some x.
Proof.
  intros Hin. unfold of_pairs. apply keyed_fold_mem. left. eauto.
Qed.

End DictFacts.

Section SetFacts.
Context {PS : PySet}.

Lemma list_of_set_nil : list_of_set [] = [].
Proof.
  destruct (list_of_set []) as [|x l] eqn:E; [reflexivity|].
  exfalso. apply (list_of_set_In [] x). rewrite E. now left.
Qed.

(** A set built from copies of one value lists that value once. *)
Lemma list_of_set_constant (x : string) (l : list string) :
  l <> [] -> (forall y, In y l -> y = x) -> list_of_set l = [x].
Proof.
  intros Hne Hall.
  pose proof (list_of_set_NoDup l) as Hnd.
  pose proof (list_of_set_In l) as Hin.
  assert (Hx : In x (list_of_set l)).
  { apply Hin. destruct l as [|y l]; [congruence|].
    left. apply Hall. now left. }
  destruct (list_of_set l) as [|a [|b r]].
  - destruct Hx.
  - f_equal. apply Hall, Hin. now left.
  - exfalso. assert (a = x) by (apply Hall, Hin; now left).
    assert (b = x) by (apply Hall, Hin; right; now left).
    subst. inversion Hnd as [|? ? Hnotin _]. apply Hnotin. now left.
Qed.


End SetFacts.

(* ===================================================================== *)
(** ** Normalisation of institutes and of the other categories *)
(* ===================================================================== *)

Section NormalizerFacts.
Context {PS : PySet} {SC : Scorer}.

Lemma abbreviation_keys_lowercase (k v : string) :
  get k INSTITUTE_ABBREVIATIONS = Some v -> lower k = k.
Proof.
  intros H. apply get_In in H.
  assert (Hall : forallb (fun kv => String.eqb (lower (fst kv)) (fst kv))
                         INSTITUTE_ABBREVIATIONS = true) by (vm_compute; reflexivity).
  rewrite forallb_forall in Hall. specialize (Hall _ H).
  now apply String.eqb_eq in Hall.
Qed.

(** An input that is an abbreviation key in some casing gets the mapped
    value and nothing else. *)
Lemma normalize_institutes_abbreviation (self : FuzzyMatcher) (st : Store)
  (institute v : string) :
  get (lower institute) INSTITUTE_ABBREVIATIONS = Some v ->
  normalize_institutes self st [institute] = [(institute, [v])].
Proof.
  intros H. unfold normalize_institutes. cbn [fold_left].
  rewrite H. cbn [is_nil set].
  rewrite (list_of_set_constant v); [reflexivity|discriminate|].
  intros y [<-|[]]. reflexivity.
Qed.

(** An input that is no abbreviation key and has fuzzy matches gets the
    set of itself and its matches, in the order of the set. *)
Lemma normalize_institutes_fuzzy (self : FuzzyMatcher) (st : Store)
  (institute : string) :
  get (lower institute) INSTITUTE_ABBREVIATIONS = None ->
  match_entity self institute (get_or "institutes" [] (_get_db_context st)) <> [] ->
  normalize_institutes self st [institute] =
  [(institute,
    list_of_set (institute ::
      match_entity self institute (get_or "institutes" [] (_get_db_context st))))].
Proof.
  intros Hnone Hsome. unfold normalize_institutes. cbn [fold_left].
  rewrite Hnone.
  destruct (match_entity self institute (get_or "institutes" [] (_get_db_context st)));
    [congruence|reflexivity].
Qed.

(** In the seven other categories an input with fuzzy matches gets itself
    followed by its matches. *)
Lemma normalize_by_key_fuzzy (key : string) (self : FuzzyMatcher) (st : Store)
  (input : string) :
  match_entity self input (get_or key [] (_get_db_context st)) <> [] ->
  normalize_by_key key self st [input] =
  [(input, input :: match_entity self input (get_or key [] (_get_db_context st)))].
Proof.
  intros Hsome. unfold normalize_by_key. cbn [fold_left].
  destruct (match_entity self input (get_or key [] (_get_db_context st)));
    [congruence|reflexivity].
Qed.

Lemma process_extract_single (query choice : string) :
  process_extract query [choice] 10 = [(choice, score query choice)].
Proof.
  unfold process_extract, extract_without_order. cbn [map filter snd].
  pose proof (score_range query choice) as Hrange.
  destruct (Z.leb_spec 0 (score query choice)); [reflexivity|lia].
Qed.

(** A vocabulary of one non-empty value, scored at the threshold or above
    for a non-empty input, is that input's only match. *)
Lemma match_entity_single (self : FuzzyMatcher) (user_input v : string) :
  user_input <> EmptyString -> v <> EmptyString ->
  (threshold self <= score (lower user_input) (lower v))%Z ->
  match_entity self user_input [v] = [v].
Proof.
  intros Hu Hv Hscore. unfold match_entity.
  apply truthy_true_iff in Hu, Hv. rewrite Hu. cbn [negb orb is_nil filter].
  rewrite Hv. cbn [is_nil map]. rewrite process_extract_single. cbn [flat_map app].
  apply Z.leb_le in Hscore. rewrite Hscore.
  unfold of_pairs. cbn [map fold_left set fst snd get_or get].
  rewrite lower_idem. unfold get_or. cbn [get]. rewrite String.eqb_refl. cbn [app].
  apply list_of_set_constant; [discriminate|].
  intros y [<-|[]]. reflexivity.
Qed.


End NormalizerFacts.

(** C2. For every key [k] of the abbreviation table, normalising the
    institute inputs [[k]] gives exactly the map from [k] to the singleton
    of its canonical value, whatever the scorer, the threshold and the
    vocabulary of the store: no fuzzy candidate is appended. *)
Theorem abbreviation_key_gets_canonical_only {PS : PySet} {SC : Scorer}
  (self : FuzzyMatcher) (st : Store) (k canonical : string) :
  get k INSTITUTE_ABBREVIATIONS = Some canonical ->
  normalize_institutes self st [k] = [(k, [canonical])].
Proof.
  intros H. apply normalize_institutes_abbreviation.
  now rewrite (abbreviation_keys_lowercase k canonical H).
Qed.

Lemma abbreviation_key_gets_canonical_only_witness :
  @normalize_institutes first_seen_order containment_score default_matcher
    (store_with "institutes" ["iit b campus"; "IIT B"]) ["iit b"] =
  [("iit b", ["Indian Institute of Technology, Bombay"])].
Proof.
  apply (@abbreviation_key_gets_canonical_only first_seen_order containment_score
           default_matcher (store_with "institutes" ["iit b campus"; "IIT B"])
           "iit b" "Indian Institute of Technology, Bombay").
  reflexivity.
Defined.

(** C4, at the inputs where the code departs from it.  With the only
    company of the vocabulary, [Stripe], as input, the candidate list of
    [normalize_companies] names it twice, in every run: the original is
    followed by a match equal to it and nothing removes the repetition.
    With an institute of the vocabulary as input and a second institute
    matching it, there is a run in which [normalize_institutes] lists the
    other institute first: the set that removes repetitions also gives up
    the order.  The scorer is any that gives these pairs 100, as the
    token-set ratio does when the tokens of the query are among those of
    the choice. *)
Theorem candidates_lose_uniqueness_or_order {SC : Scorer} :
  score "stripe" "stripe" = 100%Z ->
  score "stanford university" "stanford university" = 100%Z ->
  score "stanford university" "stanford university school of medicine" = 100%Z ->
  (forall PS : PySet,
      @normalize_companies PS SC default_matcher
        (store_with "companies" ["Stripe"]) ["Stripe"] =
      [("Stripe", ["Stripe"; "Stripe"])]) /\
  @normalize_institutes reversed_order SC default_matcher
    (store_with "institutes"
       ["Stanford University"; "Stanford University School of Medicine"])
    ["Stanford University"] =
  [("Stanford University",
    ["Stanford University School of Medicine"; "Stanford University"])].
Proof.
  intros Hstripe Hsame Hlonger. split.
  - intros PS. unfold normalize_companies.
    rewrite normalize_by_key_fuzzy;
      change (get_or "companies" [] (_get_db_context (store_with "companies" ["Stripe"])))
        with ["Stripe"];
      rewrite (match_entity_single default_matcher "Stripe" "Stripe");
      try discriminate; try reflexivity.
    all: change (lower "Stripe") with "stripe"; rewrite Hstripe;
      unfold default_matcher, SIMILARITY_THRESHOLD; cbn; lia.
  - unfold normalize_institutes, match_entity, process_extract.
    cbv -[score Z.leb Z.ltb].
    rewrite Hsame, Hlonger. reflexivity.
Qed.

Lemma candidates_lose_uniqueness_or_order_witness :
  (forall PS : PySet,
      @normalize_companies PS containment_score default_matcher
        (store_with "companies" ["Stripe"]) ["Stripe"] =
      [("Stripe", ["Stripe"; "Stripe"])]) /\
  @normalize_institutes reversed_order containment_score default_matcher
    (store_with "institutes"
       ["Stanford University"; "Stanford University School of Medicine"])
    ["Stanford University"] =
  [("Stanford University",
    ["Stanford University School of Medicine"; "Stanford University"])].
Proof.
  apply (@candidates_lose_uniqueness_or_order containment_score); reflexivity.
Defined.

(* ===================================================================== *)
(** ** The approximate matcher *)
(* ===================================================================== *)

Section MatcherFacts.
Context {PS : PySet} {SC : Scorer}.

Lemma insert_desc_perm (x : string * Z) (l : list (string * Z)) :
  Permutation (insert_desc x l) (x :: l).
Proof.
  induction l as [|y r IH]; simpl; [reflexivity|].
  destruct (snd x <? snd y)%Z; [|reflexivity].
  rewrite IH. apply perm_swap.
Qed.

Lemma sorted_desc_perm (l : list (string * Z)) : Permutation (sorted_desc l) l.
Proof.
  induction l as [|x r IH]; simpl; [reflexivity|].
  rewrite insert_desc_perm. now constructor.
Qed.

Lemma firstn_In {A : Type} (n : nat) (l : list A) (x : A) :
  In x (firstn n l) -> In x l.
Proof.
  intros H. rewrite <- (firstn_skipn n l). apply in_or_app. now left.
Qed.

(** Every ranked choice is a choice with its score. *)
Lemma process_extract_In (query : string) (choices : list string) (limit : nat)
  (m : string) (sc : Z) :
  In (m, sc) (process_extract query choices limit) ->
  In m choices /\ sc = score query m.
Proof.
  unfold process_extract, extract_without_order. intros H. apply firstn_In in H.
  apply (Permutation_in _ (sorted_desc_perm _)) in H.
  apply filter_In in H as [H _].
  apply in_map_iff in H as (c & [= <- <-] & Hc). auto.
Qed.



End MatcherFacts.

Section MatchEntityFacts.
Context {PS : PySet} {SC : Scorer}.
Variable self : FuzzyMatcher.
Variable user_input : string.

Lemma match_entity_cases (db_values : list string) :
  (match_entity self user_input db_values = [] /\
   (user_input = EmptyString \/ filter truthy db_values = [])) \/
  (match_entity self user_input db_values =
     list_of_set (matched_values self user_input (filter truthy db_values)) /\
   user_input <> EmptyString /\ filter truthy db_values <> []).
Proof.
  unfold match_entity.
  destruct user_input as [|c r] eqn:Hu; [left; auto|].
  destruct db_values as [|v l]; [left; auto|].
  cbn [truthy negb orb is_nil].
  destruct (filter truthy (v :: l)) as [|v' l'] eqn:Hf; [left; auto|].
  right. cbn [is_nil]. repeat split; discriminate.
Qed.



End MatchEntityFacts.

Section RankingFacts.
















End RankingFacts.

Section RestoreFacts.
Context {V : Type}.


End RestoreFacts.

Section MatchEntityRanking.
Context {PS : PySet} {SC : Scorer}.
Variable self : FuzzyMatcher.
Variable user_input : string.












End MatchEntityRanking.



(* ===================================================================== *)
(** ** Entity extraction *)
(* ===================================================================== *)

Section ExtractionFacts.
Context {PS : PySet}.

Lemma failed_retrieval_empty_context (st : Store) :
  retrieval_fails st -> _get_db_context st = [].
Proof.
  intros Hfail. unfold _get_db_context, try_bind.
  destruct (connect st) eqn:Hc; [|reflexivity].
  destruct Hfail as [Hfail|[(key & Hkey & Hnone)|Hrel]]; [congruence| |].
  - repeat match goal with
           | |- context [select_distinct st ?k] =>
               destruct (select_distinct st k) eqn:?; [|reflexivity]
           end.
    exfalso. unfold entity_types in Hkey. cbn [In] in Hkey.
    repeat (destruct Hkey as [<-|Hkey]; [congruence|]). exact Hkey.
  - rewrite Hrel.
    repeat match goal with
           | |- context [select_distinct st ?k] =>
               destruct (select_distinct st k) eqn:?; [|reflexivity]
           end.
    reflexivity.
Qed.

(** What extraction returns on an empty vocabulary context. *)
Lemma extract_entities_empty_context (st : Store) (query : string) :
  _get_db_context st = [] ->
  extract_entities st query =
  [ ("companies", Strs []); ("roles", Strs []); ("cities", Strs []);
    ("states", Strs []); ("countries", Strs []);
    ("institutes",
     Strs (list_of_set
             (filter (fun abbrev => contains abbrev (lower query))
                     (keys INSTITUTE_ABBREVIATIONS))));
    ("degrees", Strs []); ("domains", Strs []);
    ("years", Ints (map int_of_digits (findall_years query))) ].
Proof.
  intros Hctx. unfold extract_entities, occurring. rewrite Hctx.
  cbn [get_or get filter map String.eqb Ascii.eqb Bool.eqb negb].
  rewrite app_nil_r, !list_of_set_nil. reflexivity.
Qed.

End ExtractionFacts.

(** C8. When vocabulary retrieval fails, extraction still returns its
    nine-entry result: the vocabulary context is empty, so each of its
    eight lists reads as empty, the seven categories fed by the vocabulary
    alone are empty, institutes hold abbreviation keys found in the query
    and nothing else, and years hold the year tokens. *)
Theorem extraction_survives_retrieval_failure {PS : PySet} (st : Store)
  (query : string) :
  retrieval_fails st ->
  _get_db_context st = [] /\
  (forall key, get_or key [] (_get_db_context st) = []) /\
  extract_entities st query =
  [ ("companies", Strs []); ("roles", Strs []); ("cities", Strs []);
    ("states", Strs []); ("countries", Strs []);
    ("institutes",
     Strs (list_of_set
             (filter (fun abbrev => contains abbrev (lower query))
                     (keys INSTITUTE_ABBREVIATIONS))));
    ("degrees", Strs []); ("domains", Strs []);
    ("years", Ints (map int_of_digits (findall_years query))) ] /\
  (forall x, In x (strs_of (get "institutes" (extract_entities st query))) ->
             In x (keys INSTITUTE_ABBREVIATIONS) /\ contains x (lower query) = true).
Proof.
  intros Hfail. pose proof (failed_retrieval_empty_context st Hfail) as Hctx.
  split; [exact Hctx|]. split; [intros key; now rewrite Hctx|].
  rewrite (extract_entities_empty_context st query Hctx). split; [reflexivity|].
  cbn [get strs_of String.eqb Ascii.eqb Bool.eqb].
  intros x Hx. apply list_of_set_In, filter_In in Hx. exact Hx.
Qed.

Lemma extraction_survives_retrieval_failure_witness :
  @extract_entities first_seen_order unreachable_store "Who studied at MIT in 2015?" =
  [ ("companies", Strs []); ("roles", Strs []); ("cities", Strs []);
    ("states", Strs []); ("countries", Strs []); ("institutes", Strs ["mit"]);
    ("degrees", Strs []); ("domains", Strs []); ("years", Ints [2015%Z]) ].
Proof.
  destruct (@extraction_survives_retrieval_failure first_seen_order unreachable_store
              "Who studied at MIT in 2015?") as (_ & _ & Hresult & _).
  - left. reflexivity.
  - rewrite Hresult. reflexivity.
Defined.

(* ===================================================================== *)
(** ** Hints *)
(* ===================================================================== *)

Section HintFacts.
Context {PS : PySet} {SC : Scorer}.

Lemma hints_of_missing_type (normalized : dict (dict (list string)))
  (entity_type : string) :
  get_or entity_type [] normalized = [] -> hints_of_type normalized entity_type = [].
Proof.
  intros H.
  assert (E : get entity_type normalized = None \/ get entity_type normalized = Some []).
  { unfold get_or in H.
    match type of H with
    | match ?g with _ => _ end = _ => destruct g as [d|] eqn:E
    end; [right; subst d; exact E|left; exact E]. }
  unfold hints_of_type. destruct E as [E|E]; now rewrite E.
Qed.

(** The hint builder reads the eight string categories only. *)
Lemma build_hints_without_strings (extracted : dict entity_values)
  (normalized : dict (dict (list string))) :
  (forall key, In key entity_types -> get_or key [] normalized = []) ->
  _build_hints extracted normalized = "No entities found".
Proof.
  intros Hnone. unfold _build_hints.
  assert (Hflat : forall types,
             (forall key, In key types -> get_or key [] normalized = []) ->
             flat_map (hints_of_type normalized) types = []).
  { induction types as [|k r IH]; intros H; [reflexivity|].
    cbn [flat_map]. rewrite hints_of_missing_type by (apply H; now left).
    apply IH. intros key Hkey. apply H. now right. }
  now rewrite (Hflat entity_types Hnone).
Qed.

Lemma set_not_empty {V : Type} (k : string) (v : V) (d : dict V) : set k v d <> [].
Proof.
  destruct d as [|[k' v'] r]; simpl; [discriminate|].
  destruct (String.eqb k k'); discriminate.
Qed.

Lemma of_pairs_not_empty {V : Type} (kvs : list (string * V)) :
  kvs <> [] -> of_pairs kvs <> [].
Proof.
  unfold of_pairs. destruct kvs as [|[k v] r]; [congruence|]. intros _.
  cbn [fold_left fst snd].
  assert (Hkeep : forall (l : list (string * V)) (d : dict V),
             d <> [] -> fold_left (fun d kv => set (fst kv) (snd kv) d) l d <> []).
  { induction l as [|kv l IH]; intros d Hd; [exact Hd|].
    cbn [fold_left]. apply IH, set_not_empty. }
  apply Hkeep, set_not_empty.
Qed.

(** Extracted years are normalised under the key [years]. *)
Lemma normalize_all_years (self : FuzzyMatcher) (st : Store)
  (extracted : dict entity_values) :
  ints_of (get "years" extracted) <> [] ->
  exists entries,
    get "years" (normalize_all self st extracted) = Some entries /\ entries <> [].
Proof.
  intros Hyears. unfold normalize_all. cbv zeta.
  destruct (get "years" extracted) as [[l|l]|] eqn:Hget;
    cbn [ints_of] in Hyears; try congruence.
  destruct l as [|y l]; [congruence|].
  cbn [truthy_values ints_of]. eexists. split.
  - rewrite get_set, String.eqb_refl. reflexivity.
  - apply of_pairs_not_empty. discriminate.
Qed.

(** When no string was extracted, no string category is normalised. *)
Lemma no_strings_extracted_none_normalized (self : FuzzyMatcher) (st : Store)
  (extracted : dict entity_values) :
  (forall key, In key entity_types -> truthy_values (get key extracted) = false) ->
  forall key, In key entity_types ->
              get_or key [] (normalize_all self st extracted) = [].
Proof.
  intros Hnone key Hkey. unfold normalize_all, add_normalized. cbv zeta.
  repeat match goal with
         | |- context [truthy_values (get ?k extracted)] =>
             lazymatch k with
             | "years" => fail
             | _ => rewrite (Hnone k) by (unfold entity_types; cbn [In]; tauto)
             end
         end.
  unfold get_or.
  destruct (truthy_values (get "years" extracted)); [|reflexivity].
  rewrite get_set.
  unfold entity_types in Hkey. cbn [In] in Hkey.
  repeat (destruct Hkey as [<-|Hkey]; [reflexivity|]). destruct Hkey.
Qed.

End HintFacts.

(** C10. When the eight string categories are empty after normalisation
    and years were extracted, [normalize_query] gives the hint
    [No entities found], although the extracted entities are not empty
    and the normalised entities hold the years: the hint builder goes
    through the eight string categories and never reads the years. *)
Theorem years_only_query_has_no_hint {PS : PySet} {SC : Scorer}
  (matcher : FuzzyMatcher) (st : Store) (user_query : string) :
  let result := normalize_query matcher st user_query in
  (forall key, In key entity_types ->
               get_or key [] (normalized_entities result) = []) ->
  ints_of (get "years" (extracted_entities result)) <> [] ->
  normalization_hints result = "No entities found" /\
  extracted_entities result <> [] /\
  normalized_entities result <> [] /\
  exists entries,
    get "years" (normalized_entities result) = Some entries /\ entries <> [].
Proof.
  intros result Hnone Hyears. subst result.
  cbn [normalize_query normalization_hints extracted_entities normalized_entities] in *.
  split; [now apply build_hints_without_strings|].
  split; [unfold extract_entities; discriminate|].
  destruct (normalize_all_years matcher st _ Hyears) as (entries & Hget & Hne).
  split; [|eauto].
  intros Hnil. rewrite Hnil in Hget. discriminate.
Qed.

Lemma years_only_query_has_no_hint_witness :
  let result :=
    @normalize_query first_seen_order containment_score default_matcher
      (store_with "companies" ["Stripe"]) "Who joined in 2015?" in
  normalization_hints result = "No entities found" /\
  extracted_entities result <> [] /\
  normalized_entities result <> [] /\
  exists entries,
    get "years" (normalized_entities result) = Some entries /\ entries <> [].
Proof.
  apply (@years_only_query_has_no_hint first_seen_order containment_score
           default_matcher (store_with "companies" ["Stripe"]) "Who joined in 2015?").
  - intros key Hkey. unfold entity_types in Hkey. cbn [In] in Hkey.
    repeat (destruct Hkey as [<-|Hkey]; [reflexivity|]). destruct Hkey.
  - vm_compute. discriminate.
Defined.

(* ===================================================================== *)
(** ** Year tokens *)
(* ===================================================================== *)

Section YearFacts.












End YearFacts.



(* ===================================================================== *)
(** ** More on SQL synthesis *)
(* ===================================================================== *)

Section SynthesisOutcome.
Variable w : World.
Variable user_query : string.
Variable normalized : dict (dict (list string)).

(** What a run of [generate_sql] leaves behind, by its answer. *)
Lemma generate_sql_outcome (budget : nat) :
  forall (retry_count : nat) (s : State),
    MAX_RETRIES - retry_count <= budget ->
    match generate_sql w user_query normalized retry_count s with
    | (None, s') =>
        llm_calls s' = llm_calls s + (MAX_RETRIES - retry_count) /\
        slept s' = slept s + (MAX_RETRIES - retry_count) * RETRY_DELAY
    | (Some sql, s') =>
        llm_calls s < llm_calls s' <= llm_calls s + (MAX_RETRIES - retry_count) /\
        slept s' = slept s + (llm_calls s' - llm_calls s - 1) * RETRY_DELAY /\
        passes_shape sql = true /\
        exists text,
          generate_content w (llm_calls s' - 1) (build_prompt user_query normalized)
            = Replies text /\
          sql = clean_response text
    end.
Proof.
  induction budget as [|budget IH]; intros retry_count s Hb;
    rewrite (generate_sql_step w user_query normalized retry_count);
    destruct (Nat.leb_spec MAX_RETRIES retry_count) as [Hle|Hgt];
    try (split; lia); try lia.
  cbv zeta.
  assert (Hretry :
    match generate_sql w user_query normalized (retry_count + 1)
            (snd (sleep RETRY_DELAY
               (snd (call_model w (build_prompt user_query normalized) s)))) with
    | (None, s') =>
        llm_calls s' = llm_calls s + (MAX_RETRIES - retry_count) /\
        slept s' = slept s + (MAX_RETRIES - retry_count) * RETRY_DELAY
    | (Some sql, s') =>
        llm_calls s < llm_calls s' <= llm_calls s + (MAX_RETRIES - retry_count) /\
        slept s' = slept s + (llm_calls s' - llm_calls s - 1) * RETRY_DELAY /\
        passes_shape sql = true /\
        exists text,
          generate_content w (llm_calls s' - 1) (build_prompt user_query normalized)
            = Replies text /\
          sql = clean_response text
    end).
  { specialize (IH (retry_count + 1)
                   (snd (sleep RETRY_DELAY
                      (snd (call_model w (build_prompt user_query normalized) s))))).
    destruct (generate_sql w user_query normalized (retry_count + 1) _) as [[sql|] s'];
      cbn [llm_calls slept snd sleep call_model] in IH.
    - destruct IH as (Hc & Hs & Hshape & Htext); [lia|].
      repeat split; try lia; try assumption.
      rewrite Hs. unfold RETRY_DELAY. nia.
    - destruct IH as (Hc & Hs); [lia|]. split; [lia|].
      rewrite Hs. unfold RETRY_DELAY. nia. }
  destruct (generate_content w (llm_calls s) (build_prompt user_query normalized))
    as [|text] eqn:Hreply; [exact Hretry|].
  destruct (too_short (clean_response text)) eqn:E1; [exact Hretry|].
  destruct (missing_select (clean_response text)) eqn:E2; [exact Hretry|].
  cbn [llm_calls slept snd call_model]. repeat split; try lia.
  - unfold passes_shape. now rewrite E1, E2.
  - exists text. split; [|reflexivity].
    replace (S (llm_calls s) - 1) with (llm_calls s) by lia. exact Hreply.
Qed.


End SynthesisOutcome.



(** X2. Whatever the model answers and whatever count it is started
    with, [generate_sql] calls the model at most [MAX_RETRIES -
    retry_count] times (never, once the count is used up), pauses
    [RETRY_DELAY] seconds after each failed attempt and not after a
    successful one, answers [None] only after using every attempt, and
    leaves the log tables alone. *)
Theorem generate_sql_budget_and_pauses (w : World) (user_query : string)
  (normalized : dict (dict (list string))) (retry_count : nat) (s : State) :
  let answer := fst (generate_sql w user_query normalized retry_count s) in
  let s' := snd (generate_sql w user_query normalized retry_count s) in
  let calls := llm_calls s' - llm_calls s in
  llm_calls s <= llm_calls s' /\
  calls <= MAX_RETRIES - retry_count /\
  slept s' =
    slept s + RETRY_DELAY * (calls - match answer with Some _ => 1 | None => 0 end) /\
  (answer = None -> calls = MAX_RETRIES - retry_count) /\
  search_queries s' = search_queries s /\
  query_results s' = query_results s.
Proof.
  intros answer s' calls.
  pose proof (generate_sql_outcome w user_query normalized
                (MAX_RETRIES - retry_count) retry_count s (le_n _)) as Hout.
  destruct (generate_sql_effects w user_query normalized
              (MAX_RETRIES - retry_count) retry_count s (le_n _)) as (_ & Hq & Hr).
  subst answer s' calls.
  destruct (generate_sql w user_query normalized retry_count s) as [[sql|] s'];
    cbn [fst snd] in *.
  - destruct Hout as (Hc & Hs & _).
    repeat split; try assumption; try discriminate; unfold RETRY_DELAY in *; lia.
  - destruct Hout as (Hc & Hs).
    repeat split; try assumption; unfold RETRY_DELAY in *; lia.
Qed.

(** X3. A text that [generate_sql] returns is the cleaned reply of the
    last call it made, has at least ten characters and contains [SELECT]
    once upper-cased: the answer is never empty and never a text the
    model did not give. *)
Theorem generate_sql_returns_cleaned_reply (w : World) (user_query : string)
  (normalized : dict (dict (list string))) (retry_count : nat) (s : State)
  (sql : string) :
  fst (generate_sql w user_query normalized retry_count s) = Some sql ->
  let s' := snd (generate_sql w user_query normalized retry_count s) in
  10 <= String.length sql /\
  contains "SELECT" (upper sql) = true /\
  exists text,
    generate_content w (llm_calls s' - 1) (build_prompt user_query normalized)
      = Replies text /\
    sql = clean_response text.
Proof.
  intros Hsome s'.
  pose proof (generate_sql_outcome w user_query normalized
                (MAX_RETRIES - retry_count) retry_count s (le_n _)) as Hout.
  subst s'.
  destruct (generate_sql w user_query normalized retry_count s) as [[sql'|] s'];
    cbn [fst snd] in *; [|discriminate].
  injection Hsome as ->. destruct Hout as (_ & _ & Hshape & Htext).
  unfold passes_shape, too_short, missing_select in Hshape.
  apply andb_true_iff in Hshape as [H1 H2].
  apply negb_true_iff, orb_false_iff in H1 as [_ Hlen].
  apply negb_true_iff, negb_false_iff in H2.
  apply Nat.ltb_ge in Hlen. auto.
Qed.

Lemma generate_sql_returns_cleaned_reply_witness :
  10 <= String.length "SELECT * FROM members" /\
  contains "SELECT" (upper "SELECT * FROM members") = true /\
  exists text,
    generate_content (sample_world (third_time fenced_text) true (Some [])) 2
      (build_prompt "Who?" []) = Replies text /\
    "SELECT * FROM members" = clean_response text.
Proof.
  apply (generate_sql_returns_cleaned_reply
           (sample_world (third_time fenced_text) true (Some [])) "Who?" []
           0 initial_state "SELECT * FROM members").
  reflexivity.
Defined.

(* ===================================================================== *)
(** ** More on the query processor *)
(* ===================================================================== *)

Section ProcessorRuns.
Context {PS : PySet} {SC : Scorer}.
Variable w : World.
Variable user_query : string.

Let computed : NormalizationResult :=
  normalize_query default_matcher (store w) user_query.

Lemma process_query_success_run (s : State) (sql : string) (rows : list row) :
  fst (generate_sql w user_query (normalized_entities computed) 0 s) = Some sql ->
  validate_sql w sql = true ->
  fst (execute_sql w sql) = Some rows ->
  process_query w user_query s =
  ({| success := true;
      resp_original_query := user_query;
      resp_extracted_entities := extracted_entities computed;
      resp_normalized_entities := normalized_entities computed;
      generated_sql := Some sql;
      results := rows;
      results_count := List.length rows;
      execution_time_ms := execution_ms w sql;
      total_time_ms := total_ms w;
      error_message := None |},
   snd (_log_query w user_query (Some sql) (execution_ms w sql) None (Some rows)
          (snd (generate_sql w user_query (normalized_entities computed) 0 s)))).
Proof.
  intros Hgen Hval Hrun.
  destruct (shaped_not_empty sql) as (c & r & ->).
  { eapply generate_sql_returns_shaped; [reflexivity|exact Hgen]. }
  unfold process_query, bind. fold computed.
  destruct (generate_sql w user_query (normalized_entities computed) 0 s) as [sql' s1].
  cbn [fst snd] in *. subst sql'. rewrite Hval. cbn [negb].
  unfold execute_sql in *. cbn [fst] in Hrun. rewrite Hrun.
  destruct (_log_query w user_query (Some (String c r)) (execution_ms w (String c r))
              None (Some rows) s1).
  reflexivity.
Qed.

(** Every run ends in one call of the logger, made on the state the
    synthesis left. *)
Lemma process_query_ends_in_log (s : State) :
  exists sql elapsed error rows,
    snd (process_query w user_query s) =
    snd (_log_query w user_query sql elapsed error rows
           (snd (generate_sql w user_query (normalized_entities computed) 0 s))).
Proof.
  destruct (fst (generate_sql w user_query (normalized_entities computed) 0 s))
    as [sql|] eqn:Hgen.
  - destruct (validate_sql w sql) eqn:Hval.
    + destruct (fst (execute_sql w sql)) as [rows|] eqn:Hrun.
      * rewrite (process_query_success_run s sql rows Hgen Hval Hrun). cbn [snd]. eauto.
      * rewrite (process_query_execution_fails w user_query s sql Hgen Hval Hrun).
        cbn [snd]. eauto.
    + rewrite (process_query_validation_fails w user_query s sql Hgen Hval).
      cbn [snd]. eauto.
  - rewrite (process_query_generation_fails w user_query s Hgen). cbn [snd]. eauto.
Qed.

(** The response of every run, by the way it ends. *)
Lemma process_query_response_cases (s : State) :
  (exists f, fst (process_query w user_query s)
             = _failed_response user_query (failure_message f)) \/
  (exists sql rows,
     fst (generate_sql w user_query (normalized_entities computed) 0 s) = Some sql /\
     run_query w sql = Some rows /\
     fst (process_query w user_query s) =
     {| success := true;
        resp_original_query := user_query;
        resp_extracted_entities := extracted_entities computed;
        resp_normalized_entities := normalized_entities computed;
        generated_sql := Some sql;
        results := rows;
        results_count := List.length rows;
        execution_time_ms := execution_ms w sql;
        total_time_ms := total_ms w;
        error_message := None |}).
Proof.
  destruct (fst (generate_sql w user_query (normalized_entities computed) 0 s))
    as [sql|] eqn:Hgen.
  - destruct (validate_sql w sql) eqn:Hval.
    + destruct (fst (execute_sql w sql)) as [rows|] eqn:Hrun.
      * right. exists sql, rows.
        rewrite (process_query_success_run s sql rows Hgen Hval Hrun). auto.
      * left. exists Execution.
        now rewrite (process_query_execution_fails w user_query s sql Hgen Hval Hrun).
    + left. exists Validation.
      now rewrite (process_query_validation_fails w user_query s sql Hgen Hval).
  - left. exists Generation.
    now rewrite (process_query_generation_fails w user_query s Hgen).
Qed.

End ProcessorRuns.

Lemma log_query_effect (w : World) (user_query : string) (sql : option string)
  (elapsed : Z) (error : option string) (rows : option (list row)) (s : State) :
  let s' := snd (_log_query w user_query sql elapsed error rows s) in
  llm_calls s' = llm_calls s /\ slept s' = slept s /\
  List.length (search_queries s') =
  List.length (search_queries s) + (if log_store_up w then 1 else 0).
Proof.
  unfold _log_query. destruct (log_store_up w); cbn [snd llm_calls slept search_queries].
  - rewrite length_app. cbn. lia.
  - lia.
Qed.

Lemma generate_sql_ignores_log_store (up : bool) (w : World) (user_query : string)
  (normalized : dict (dict (list string))) (budget : nat) :
  forall (retry_count : nat) (s : State),
    MAX_RETRIES - retry_count <= budget ->
    generate_sql (with_log_store up w) user_query normalized retry_count s =
    generate_sql w user_query normalized retry_count s.
Proof.
  induction budget as [|budget IH]; intros retry_count s Hb;
    rewrite (generate_sql_step (with_log_store up w) user_query normalized retry_count),
            (generate_sql_step w user_query normalized retry_count);
    destruct (Nat.leb_spec MAX_RETRIES retry_count) as [Hle|Hgt];
    try reflexivity; try lia.
  cbv zeta. cbn [generate_content with_log_store call_model snd].
  rewrite IH by lia. reflexivity.
Qed.

(** X4. When SQL is generated, validated and executed, the response is a
    success that carries the query, the entities computed for it, the
    generated SQL, the rows with their count, and both times; when the
    log store is up one row is logged with that SQL, that count and no
    error. *)
Theorem process_query_success_response {PS : PySet} {SC : Scorer} (w : World)
  (user_query : string) (s : State) (sql : string) (rows : list row) :
  let computed := normalize_query default_matcher (store w) user_query in
  fst (generate_sql w user_query (normalized_entities computed) 0 s) = Some sql ->
  validate_sql w sql = true ->
  fst (execute_sql w sql) = Some rows ->
  fst (process_query w user_query s) =
  {| success := true;
     resp_original_query := user_query;
     resp_extracted_entities := extracted_entities computed;
     resp_normalized_entities := normalized_entities computed;
     generated_sql := Some sql;
     results := rows;
     results_count := List.length rows;
     execution_time_ms := execution_ms w sql;
     total_time_ms := total_ms w;
     error_message := None |} /\
  (log_store_up w = true ->
   search_queries (snd (process_query w user_query s)) =
   (search_queries s ++
      [{| log_original_query := user_query;
          log_generated_sql := Some sql;
          log_results_count := List.length rows;
          log_execution_time_ms := execution_ms w sql;
          log_error_message := None |}])%list).
Proof.
  intros computed Hgen Hval Hrun.
  rewrite (process_query_success_run w user_query s sql rows Hgen Hval Hrun).
  cbn [fst snd]. split; [reflexivity|].
  intros Hup. unfold _log_query. rewrite Hup. cbn [snd search_queries].
  destruct (generate_sql_effects w user_query (normalized_entities computed)
              MAX_RETRIES 0 s) as (_ & Hq & _); [lia|].
  fold computed. now rewrite Hq.
Qed.

Lemma process_query_success_response_witness :
  let w := sample_world (fun _ => Replies "SELECT * FROM members") true
             (Some [[("member_id", "m1")]]) in
  fst (@process_query first_seen_order containment_score w "Who?" initial_state) =
  {| success := true;
     resp_original_query := "Who?";
     resp_extracted_entities :=
       extracted_entities
         (@normalize_query first_seen_order containment_score default_matcher
            empty_store "Who?");
     resp_normalized_entities := [];
     generated_sql := Some "SELECT * FROM members";
     results := [[("member_id", "m1")]];
     results_count := 1;
     execution_time_ms := 12%Z;
     total_time_ms := 40%Z;
     error_message := None |}.
Proof.
  intros w.
  apply (@process_query_success_response first_seen_order containment_score w "Who?"
           initial_state "SELECT * FROM members" [[("member_id", "m1")]]);
    reflexivity.
Defined.

Lemma process_query_response_shape {PS : PySet} {SC : Scorer} (w : World)
  (user_query : string) (s : State) :
  let r := fst (process_query w user_query s) in
  resp_original_query r = user_query /\
  results_count r = List.length (results r) /\
  (success r = true <-> error_message r = None) /\
  (success r = true <-> generated_sql r <> None).
Proof.
  intros r. subst r.
  destruct (process_query_response_cases w user_query s)
    as [(f & ->)|(sql & rows & _ & _ & ->)];
    cbn [_failed_response resp_original_query results_count results success
         error_message generated_sql List.length];
    repeat split; try reflexivity; try discriminate; try congruence.
Qed.

(** X5. Every response, of a success or of a failure, echoes the query it
    was asked, counts its own rows ([results_count] is the length of
    [results]), and is a success exactly when it has no error message and
    exactly when it carries generated SQL. *)
Theorem process_query_response_invariants {PS : PySet} {SC : Scorer} (w : World)
  (user_query : string) (s : State) :
  let r := fst (process_query w user_query s) in
  resp_original_query r = user_query /\
  results_count r = List.length (results r) /\
  (success r = true <-> error_message r = None) /\
  (success r = true <-> generated_sql r <> None).
Proof.
  exact (process_query_response_shape w user_query s).
Qed.

(** X6. A request costs at most [MAX_RETRIES] calls of the language
    model and writes one row of [search_queries] when the log store is up
    and none when it is down, however the request ends. *)
Theorem process_query_resources {PS : PySet} {SC : Scorer} (w : World)
  (user_query : string) (s : State) :
  let s' := snd (process_query w user_query s) in
  llm_calls s <= llm_calls s' <= llm_calls s + MAX_RETRIES /\
  List.length (search_queries s') =
  List.length (search_queries s) + (if log_store_up w then 1 else 0).
Proof.
  intros s'. subst s'.
  destruct (process_query_ends_in_log w user_query s)
    as (sql & elapsed & error & rows & ->).
  destruct (log_query_effect w user_query sql elapsed error rows
              (snd (generate_sql w user_query
                      (normalized_entities
                         (normalize_query default_matcher (store w) user_query)) 0 s)))
    as (Hc & _ & Hl).
  destruct (generate_sql_effects w user_query
              (normalized_entities
                 (normalize_query default_matcher (store w) user_query))
              MAX_RETRIES 0 s) as (Hcalls & Hq & _); [lia|].
  cbv zeta in Hcalls. rewrite Hc, Hl, Hq. split; lia.
Qed.

(** X7. Whether the log store is up or down changes nothing in the
    response and nothing in the calls made to the language model: a
    logging failure never turns a success into a failure. *)
Theorem logging_never_changes_response {PS : PySet} {SC : Scorer} (up : bool)
  (w : World) (user_query : string) (s : State) :
  fst (process_query (with_log_store up w) user_query s) =
  fst (process_query w user_query s) /\
  llm_calls (snd (process_query (with_log_store up w) user_query s)) =
  llm_calls (snd (process_query w user_query s)).
Proof.
  unfold process_query, bind.
  cbn [store with_log_store].
  rewrite (generate_sql_ignores_log_store up w user_query _ MAX_RETRIES 0 s) by lia.
  destruct (generate_sql w user_query _ 0 s) as [[[|c r]|] s1].
  - unfold _log_query. cbn [log_store_up with_log_store].
    destruct up, (log_store_up w); split; reflexivity.
  - unfold validate_sql, execute_sql. cbn [explain run_query execution_ms total_ms with_log_store].
    destruct (explain w (String c r)); cbn [negb].
    + destruct (run_query w (String c r)) as [rows|];
        unfold _log_query; cbn [log_store_up with_log_store];
        destruct up, (log_store_up w); split; reflexivity.
    + unfold _log_query. cbn [log_store_up with_log_store].
      destruct up, (log_store_up w); split; reflexivity.
  - unfold _log_query. cbn [log_store_up with_log_store].
    destruct up, (log_store_up w); split; reflexivity.
Qed.

(** X8. [_log_query] touches the two log tables only.  When the store is
    down nothing is written; when it is up, one row is appended whose
    count is the number of results, and the linkage rows appended with
    it are no more than the results, each with the identifier of that new
    row and a non-empty member identifier. *)
Theorem log_query_rows_and_linkage (w : World) (user_query : string)
  (sql : option string) (elapsed : Z) (error : option string)
  (rows : option (list row)) (s : State) :
  let s' := snd (_log_query w user_query sql elapsed error rows s) in
  let given := match rows with Some r => r | None => [] end in
  llm_calls s' = llm_calls s /\ slept s' = slept s /\
  (log_store_up w = false -> s' = s) /\
  (log_store_up w = true ->
   search_queries s' =
   (search_queries s ++
      [{| log_original_query := user_query;
          log_generated_sql := sql;
          log_results_count := List.length given;
          log_execution_time_ms := elapsed;
          log_error_message := error |}])%list /\
   exists links,
     query_results s' = (query_results s ++ links)%list /\
     List.length links <= List.length given /\
     Forall (fun link => fst link = S (List.length (search_queries s)) /\
                         snd link <> EmptyString) links).
Proof.
  intros s' given. subst s' given.
  assert (Hlink : forall id (r : list row),
            List.length (linkage id r) <= List.length r /\
            Forall (fun link => fst link = id /\ snd link <> EmptyString)
                   (linkage id r)).
  { intros id r. induction r as [|x r [IHl IHf]]; [split; [simpl; lia|constructor]|].
    cbn [linkage flat_map]. fold (linkage id r).
    destruct (get "member_id" x) as [[|c m]|]; cbn [truthy app List.length].
    - split; [lia|exact IHf].
    - split; [lia|]. constructor; [split; [reflexivity|discriminate]|exact IHf].
    - split; [lia|exact IHf]. }
  unfold _log_query.
  destruct (log_store_up w); cbn [snd llm_calls slept search_queries query_results].
  - split; [reflexivity|]. split; [reflexivity|]. split; [discriminate|].
    intros _. split.
    + destruct rows as [r|]; reflexivity.
    + destruct rows as [[|x r]|].
      * exists []. split; [now rewrite app_nil_r|]. split; [simpl; lia|constructor].
      * eexists. split; [reflexivity|]. apply Hlink.
      * exists []. split; [now rewrite app_nil_r|]. split; [simpl; lia|constructor].
  - split; [reflexivity|]. split; [reflexivity|]. split; [reflexivity|discriminate].
Qed.

(* ===================================================================== *)
(** ** The endpoint *)
(* ===================================================================== *)

Section StripFacts.

Lemma lstrip_blank (s : string) : blank s = true -> lstrip s = EmptyString.
Proof.
  unfold blank. induction s as [|c r IH]; cbn [list_ascii_of_string forallb lstrip];
    [reflexivity|].
  intros H. apply andb_true_iff in H as [Hc Hr]. rewrite Hc. auto.
Qed.

Lemma lstrip_head (s : string) (c : ascii) (r : string) :
  lstrip s = String c r -> is_space c = false.
Proof.
  induction s as [|a t IH]; cbn [lstrip]; [discriminate|].
  destruct (is_space a) eqn:Ha; [exact IH|]. intros [= <- _]. exact Ha.
Qed.

Lemma rstrip_head (s : string) (c : ascii) (r : string) :
  rstrip s = String c r -> exists t, s = String c t.
Proof.
  destruct s as [|a t]; cbn [rstrip]; [discriminate|].
  destruct (rstrip t); [destruct (is_space a); [discriminate|]|];
    intros [= <- _]; eauto.
Qed.

Lemma rstrip_last (s : string) (c : ascii) :
  last_char (rstrip s) = Some c -> is_space c = false.
Proof.
  unfold last_char. induction s as [|a t IH]; cbn [rstrip]; [discriminate|].
  destruct (rstrip t) as [|b u] eqn:E.
  - destruct (is_space a) eqn:Ha; cbn; [discriminate|]. intros [= <-]. exact Ha.
  - intros H. apply IH. cbn [list_ascii_of_string rev] in H |- *.
    destruct (rev (list_ascii_of_string u) ++ [b])%list as [|x l] eqn:El.
    + destruct (rev (list_ascii_of_string u)); discriminate El.
    + cbn in H. exact H.
Qed.

(** What [strip] returns neither starts nor ends with whitespace. *)
Lemma strip_outer (s : string) :
  (forall c r, strip s = String c r -> is_space c = false) /\
  (forall c, last_char (strip s) = Some c -> is_space c = false).
Proof.
  unfold strip. split.
  - intros c r H. destruct (rstrip_head _ _ _ H) as (t & Ht).
    now apply lstrip_head in Ht.
  - apply rstrip_last.
Qed.

End StripFacts.

(** X9. A request whose query is empty or made of whitespace only is
    refused with status 400 before anything else happens: the language
    model is not called and nothing is logged. *)
Theorem search_query_refuses_blank {PS : PySet} {SC : Scorer} (srv : Main.Server)
  (request_query : string) (s : State) :
  blank request_query = true ->
  Main.search_query srv request_query s =
  (Main.HTTPException 400 "Query cannot be empty", s).
Proof.
  intros Hblank. unfold Main.search_query, strip.
  rewrite (lstrip_blank _ Hblank). reflexivity.
Qed.

Lemma search_query_refuses_blank_witness :
  @Main.search_query first_seen_order containment_score
    (sample_server (sample_world (fun _ => Replies "SELECT * FROM members") true (Some [])))
    "   " initial_state =
  (Main.HTTPException 400 "Query cannot be empty", initial_state).
Proof.
  apply (@search_query_refuses_blank first_seen_order containment_score).
  reflexivity.
Defined.

(** X10. A request of ASCII text whose stripped query is not empty is
    always answered with a body, whether the processor could be built or
    not.  The body
    echoes the stripped query (which neither starts nor ends with
    whitespace), counts its own results, carries the server's timestamp,
    and is a success exactly when it has no error message. *)
Theorem search_query_answers_stripped {PS : PySet} {SC : Scorer} (srv : Main.Server)
  (request_query : string) (s : State) :
  ascii_text request_query = true ->
  strip request_query <> EmptyString ->
  exists body,
    fst (Main.search_query srv request_query s) = Main.Answer body /\
    Main.body_original_query body = strip request_query /\
    (forall c r, Main.body_original_query body = String c r -> is_space c = false) /\
    (forall c, last_char (Main.body_original_query body) = Some c -> is_space c = false) /\
    Main.body_results_count body = List.length (Main.body_results body) /\
    Main.body_timestamp body = Main.timestamp srv /\
    (Main.body_success body = true <-> Main.body_error_message body = None).
Proof.
  intros _ Hne. apply truthy_true_iff in Hne.
  destruct (strip_outer request_query) as [Hhead Hlast].
  unfold Main.search_query. rewrite Hne. cbn [negb].
  destruct (Main.construction_error srv) as [e|].
  - eexists. split; [reflexivity|].
    cbn [Main.body_original_query Main.body_results_count Main.body_results
         Main.body_timestamp Main.body_success Main.body_error_message List.length].
    repeat split; auto; discriminate.
  - unfold bind.
    destruct (process_query_response_shape (Main.world srv)
                (strip request_query) s) as (Hq & Hcount & Hok & _).
    destruct (process_query (Main.world srv) (strip request_query) s) as [r s'].
    cbn [fst] in *. eexists. split; [reflexivity|].
    cbn [Main.stamped Main.body_original_query Main.body_results_count
         Main.body_results Main.body_timestamp Main.body_success
         Main.body_error_message].
    rewrite Hq. repeat split; auto; apply Hok.
Qed.

Lemma search_query_answers_stripped_witness :
  exists body,
    fst (@Main.search_query first_seen_order containment_score
           (sample_server
              (sample_world (fun _ => Replies "SELECT * FROM members") true (Some [])))
           "  Who?  " initial_state) = Main.Answer body /\
    Main.body_original_query body = "Who?" /\
    Main.body_success body = true.
Proof.
  destruct (@search_query_answers_stripped first_seen_order containment_score
              (sample_server
                 (sample_world (fun _ => Replies "SELECT * FROM members") true (Some [])))
              "  Who?  " initial_state) as (body & Hbody & Hq & _).
  - reflexivity.
  - vm_compute. discriminate.
  - exists body. split; [exact Hbody|]. split; [exact Hq|].
    vm_compute in Hbody. injection Hbody as <-. reflexivity.
Defined.

(* ===================================================================== *)
(** ** More on normalisation *)
(* ===================================================================== *)

Section EntryFolds.
Context {V : Type}.
Variable entry : string -> option V.

(** A loop that stores, for each input that has one, an entry computed
    from the input alone: what a key holds at the end. *)
Lemma fold_entries_get (inputs : list string) :
  forall (d : dict V) (k : string),
    get k (fold_left (fun result input =>
                        match entry input with
                        | Some v => set input v result
                        | None => result
                        end) inputs d) =
    if in_dec string_dec k inputs
    then match entry k with Some v => Some v | None => get k d end
    else get k d.
Proof.
  induction inputs as [|a r IH]; intros d k; [reflexivity|].
  cbn [fold_left]. rewrite IH.
  destruct (String.eqb_spec k a) as [Heq|Hne].
  - subst a.
    assert (Hhere : get k (match entry k with Some v => set k v d | None => d end) =
                    match entry k with Some v => Some v | None => get k d end).
    { destruct (entry k); [|reflexivity]. rewrite get_set. now rewrite String.eqb_refl. }
    rewrite Hhere.
    destruct (in_dec string_dec k (k :: r)) as [_|Hnin]; [|exfalso; apply Hnin; now left].
    destruct (in_dec string_dec k r); destruct (entry k); reflexivity.
  - assert (Hhere : get k (match entry a with Some v => set a v d | None => d end) =
                    get k d).
    { destruct (entry a); [|reflexivity]. rewrite get_set.
      destruct (String.eqb_spec k a); [congruence|reflexivity]. }
    rewrite Hhere.
    destruct (in_dec string_dec k r) as [Hin|Hnin];
      destruct (in_dec string_dec k (a :: r)) as [Hin'|Hnin']; try reflexivity.
    + exfalso. apply Hnin'. now right.
    + exfalso. destruct Hin' as [Heq|Hin']; [congruence|contradiction].
Qed.

End EntryFolds.

Section NormalizerLookups.
Context {PS : PySet} {SC : Scorer}.
Variable self : FuzzyMatcher.
Variable st : Store.

Lemma normalize_by_key_as_entries (key : string) (inputs : list string) :
  normalize_by_key key self st inputs =
  fold_left (fun result input =>
               match (match match_entity self input
                              (get_or key [] (_get_db_context st)) with
                      | [] => None
                      | m => Some (input :: m)
                      end) with
               | Some v => set input v result
               | None => result
               end) inputs [].
Proof.
  unfold normalize_by_key. generalize (@nil (string * list string)).
  induction inputs as [|a r IH]; intros d; [reflexivity|].
  cbn [fold_left]. rewrite <- IH. f_equal.
  destruct (match_entity self a (get_or key [] (_get_db_context st))); reflexivity.
Qed.

Lemma normalize_institutes_as_entries (inputs : list string) :
  normalize_institutes self st inputs =
  fold_left (fun result input =>
               match (match get (lower input) INSTITUTE_ABBREVIATIONS with
                      | Some mapped => Some (list_of_set [mapped])
                      | None =>
                          match match_entity self input
                                  (get_or "institutes" [] (_get_db_context st)) with
                          | [] => None
                          | m => Some (list_of_set (input :: m))
                          end
                      end) with
               | Some v => set input v result
               | None => result
               end) inputs [].
Proof.
  unfold normalize_institutes. generalize (@nil (string * list string)).
  induction inputs as [|a r IH]; intros d; [reflexivity|].
  cbn [fold_left]. rewrite <- IH. f_equal.
  destruct (get (lower a) INSTITUTE_ABBREVIATIONS); [reflexivity|].
  destruct (match_entity self a (get_or "institutes" [] (_get_db_context st)));
    reflexivity.
Qed.

End NormalizerLookups.

(** X11. In the seven categories normalised by fuzzy matching alone, the
    map built from a list of inputs holds, for each input that has at
    least one fuzzy match, the input followed by its matches, and holds
    nothing else: an input without match gets no entry (not an empty
    list), and so does a string that was not an input. *)
Theorem normalize_by_key_lookup {PS : PySet} {SC : Scorer} (key : string)
  (self : FuzzyMatcher) (st : Store) (inputs : list string) (k : string) :
  get k (normalize_by_key key self st inputs) =
  if in_dec string_dec k inputs
  then match match_entity self k (get_or key [] (_get_db_context st)) with
       | [] => None
       | m => Some (k :: m)
       end
  else None.
Proof.
  rewrite normalize_by_key_as_entries, fold_entries_get.
  destruct (in_dec string_dec k inputs); [|reflexivity].
  destruct (match_entity self k (get_or key [] (_get_db_context st))); reflexivity.
Qed.

(** X12. The map [normalize_institutes] builds from a list of inputs
    holds, for an input that is an abbreviation key in any casing, the
    canonical name alone; for another input with at least one fuzzy
    match, the set of the input and its matches; and nothing for an input
    without match or for a string that was not an input. *)
Theorem normalize_institutes_lookup {PS : PySet} {SC : Scorer}
  (self : FuzzyMatcher) (st : Store) (inputs : list string) (k : string) :
  get k (normalize_institutes self st inputs) =
  if in_dec string_dec k inputs
  then match get (lower k) INSTITUTE_ABBREVIATIONS with
       | Some canonical => Some [canonical]
       | None =>
           match match_entity self k (get_or "institutes" [] (_get_db_context st)) with
           | [] => None
           | m => Some (list_of_set (k :: m))
           end
       end
  else None.
Proof.
  rewrite normalize_institutes_as_entries, fold_entries_get.
  destruct (in_dec string_dec k inputs); [|reflexivity].
  destruct (get (lower k) INSTITUTE_ABBREVIATIONS) as [canonical|].
  - rewrite (list_of_set_constant canonical); [reflexivity|discriminate|].
    intros y [<-|[]]. reflexivity.
  - destruct (match_entity self k (get_or "institutes" [] (_get_db_context st)));
      reflexivity.
Qed.

Section NormalizeAllFacts.
Context {PS : PySet} {SC : Scorer}.

Lemma get_add_normalized (e : dict entity_values) (k' : string)
  (normalize : list string -> dict (list string))
  (d : dict (dict (list string))) (key : string) :
  get key (add_normalized e k' normalize d) =
  if String.eqb key k' && truthy_values (get k' e)
  then Some (normalize (strs_of (get k' e)))
  else get key d.
Proof.
  unfold add_normalized. destruct (truthy_values (get k' e)).
  - rewrite get_set. now rewrite andb_true_r.
  - now rewrite andb_false_r.
Qed.

Lemma keys_set_In {V : Type} (k : string) (v : V) (d : dict V) (x : string) :
  In x (keys (set k v d)) <-> x = k \/ In x (keys d).
Proof.
  unfold keys. induction d as [|[k0 v0] r IH]; cbn [set map In fst].
  - intuition.
  - destruct (String.eqb_spec k k0) as [->|Hne]; cbn [map In fst].
    + intuition.
    + rewrite IH. intuition.
Qed.

Lemma keys_set_NoDup {V : Type} (k : string) (v : V) (d : dict V) :
  NoDup (keys d) -> NoDup (keys (set k v d)).
Proof.
  unfold keys. induction d as [|[k0 v0] r IH]; cbn [set map fst]; intros Hnd.
  - constructor; [intros []|constructor].
  - inversion Hnd as [|? ? Hnotin Hrest]; subst.
    destruct (String.eqb_spec k k0) as [->|Hne]; cbn [map fst].
    + now constructor.
    + constructor; [|auto].
      intros Hin. apply (keys_set_In k v r k0) in Hin as [Heq|Hin]; [congruence|auto].
Qed.

Lemma of_pairs_keys_NoDup {V : Type} (kvs : list (string * V)) :
  NoDup (keys (of_pairs kvs)).
Proof.
  unfold of_pairs.
  assert (Hkeep : forall (l : list (string * V)) (d : dict V),
             NoDup (keys d) ->
             NoDup (keys (fold_left (fun d kv => set (fst kv) (snd kv) d) l d))).
  { induction l as [|kv l IH]; intros d Hd; [exact Hd|].
    cbn [fold_left]. apply IH, keys_set_NoDup, Hd. }
  apply Hkeep. constructor.
Qed.

End NormalizeAllFacts.

(** X13. [normalize_all] gives an entry to a category exactly when it is
    one of the nine categories and something was extracted for it: a
    category with nothing extracted is left out of the result, not mapped
    to an empty map. *)
Theorem normalize_all_keeps_populated_only {PS : PySet} {SC : Scorer}
  (self : FuzzyMatcher) (st : Store) (extracted : dict entity_values) (key : string) :
  mem key (normalize_all self st extracted) = true <->
  In key (entity_types ++ ["years"])%list /\ truthy_values (get key extracted) = true.
Proof.
  unfold mem, normalize_all. cbv zeta.
  assert (Hsome : forall (A : Type) (o : option A),
             (match o with Some _ => true | None => false end) = true <-> o <> None).
  { intros A [a|]; split; congruence. }
  assert (Hstep : forall k' normalize d,
             get key (add_normalized extracted k' normalize d) <> None <->
             (key = k' /\ truthy_values (get k' extracted) = true) \/ get key d <> None).
  { intros k' normalize d. rewrite get_add_normalized.
    destruct (String.eqb_spec key k') as [->|Hne]; cbn [andb].
    - destruct (truthy_values (get k' extracted)); intuition congruence.
    - intuition congruence. }
  assert (Hset : forall (v : dict (list string)) (d : dict (dict (list string))),
             get key (set "years" v d) <> None <-> key = "years" \/ get key d <> None).
  { intros v d. rewrite get_set.
    destruct (String.eqb_spec key "years") as [->|Hne]; intuition congruence. }
  rewrite Hsome.
  destruct (truthy_values (get "years" extracted)) eqn:Hyears.
  - rewrite Hset, !Hstep. cbn [get entity_types app In].
    split.
    + intros H. decompose [or and] H; subst;
        try (split; [tauto|assumption]); congruence.
    + intros [Hin Ht]. decompose [or] Hin; subst; try contradiction;
        intuition congruence.
  - rewrite !Hstep. cbn [get entity_types app In].
    split.
    + intros H. decompose [or and] H; subst;
        try (split; [tauto|assumption]); congruence.
    + intros [Hin Ht]. decompose [or] Hin; subst; try contradiction;
        intuition congruence.
Qed.

(** X14. Years are normalised to themselves: the entries stored under
    [years] are exactly the decimal texts of the extracted years, each
    mapped to the singleton of itself, and a year extracted several times
    has one entry. *)
Theorem normalized_years_are_identity_entries {PS : PySet} {SC : Scorer}
  (self : FuzzyMatcher) (st : Store) (extracted : dict entity_values) :
  let years := ints_of (get "years" extracted) in
  let entries := get_or "years" [] (normalize_all self st extracted) in
  (forall k v, get k entries = Some v <->
               v = [k] /\ exists y, In y years /\ k = str_of_int y) /\
  NoDup (keys entries).
Proof.
  intros years entries.
  assert (Hentries :
    entries = of_pairs (map (fun v => (hd EmptyString v, v))
                            (map (fun y => [str_of_int y]) years))).
  { subst entries years. unfold normalize_all. cbv zeta. unfold get_or.
    destruct (truthy_values (get "years" extracted)) eqn:Ht.
    - rewrite get_set, String.eqb_refl. now rewrite map_map.
    - rewrite !get_add_normalized. cbn [String.eqb Ascii.eqb Bool.eqb andb get].
      destruct (get "years" extracted) as [[l|[|y l]]|]; try discriminate; reflexivity. }
  rewrite Hentries. split; [|apply of_pairs_keys_NoDup].
  assert (Hfwd : forall k v,
    get k (of_pairs (map (fun v => (hd EmptyString v, v))
                         (map (fun y => [str_of_int y]) years))) = Some v ->
    v = [k] /\ exists y, In y years /\ k = str_of_int y).
  { intros k v H. apply of_pairs_keyed_get in H as (Hin & Hk).
    apply in_map_iff in Hin as (y & <- & Hy). cbn [hd] in Hk. subst k. eauto. }
  intros k v. split; [apply Hfwd|].
  intros (-> & y & Hy & ->).
  destruct (of_pairs_keyed_mem (hd EmptyString)
              (map (fun y => [str_of_int y]) years) [str_of_int y]) as (x & Hx).
  { apply in_map_iff. eauto. }
  cbn [hd] in Hx. rewrite Hx. f_equal. now destruct (Hfwd _ _ Hx) as (-> & _).
Qed.

(* ===================================================================== *)
(** ** More on the approximate matcher *)
(* ===================================================================== *)

(** X15. Matching does not look at the casing of the input: two inputs
    that are the same once lower-cased get the same matches. *)
Theorem match_entity_ignores_input_case {PS : PySet} {SC : Scorer}
  (self : FuzzyMatcher) (input1 input2 : string) (db_values : list string) :
  lower input1 = lower input2 ->
  match_entity self input1 db_values = match_entity self input2 db_values.
Proof.
  intros Hlow. unfold match_entity.
  rewrite <- (truthy_lower input1), <- (truthy_lower input2), Hlow.
  reflexivity.
Qed.

Lemma match_entity_ignores_input_case_witness :
  @match_entity first_seen_order containment_score default_matcher
    "STRIPE" ["Stripe Inc"; "Amazon"] =
  @match_entity first_seen_order containment_score default_matcher
    "stripe" ["Stripe Inc"; "Amazon"].
Proof.
  apply (@match_entity_ignores_input_case first_seen_order containment_score).
  reflexivity.
Defined.

(** X16. Raising the threshold never adds a match: what is matched at a
    threshold is matched at every lower one. *)
Theorem match_entity_threshold_monotone {PS : PySet} {SC : Scorer}
  (low high : FuzzyMatcher) (user_input : string) (db_values : list string) :
  (threshold low <= threshold high)%Z ->
  incl (match_entity high user_input db_values)
       (match_entity low user_input db_values).
Proof.
  intros Hle x Hx.
  destruct (match_entity_cases high user_input db_values)
    as [(Hhigh & _)|(Hhigh & Hu & Hf)]; rewrite Hhigh in Hx; [destruct Hx|].
  destruct (match_entity_cases low user_input db_values)
    as [(_ & [Hwhy|Hwhy])|(Hlow & _)]; try contradiction.
  rewrite Hlow. apply (proj2 (list_of_set_In _ _)).
  apply (proj1 (list_of_set_In _ _)) in Hx.
  unfold matched_values in *. apply in_flat_map in Hx as ([m sc] & Hm & Hx).
  apply in_flat_map. exists (m, sc). split; [exact Hm|].
  destruct (Z.leb_spec (threshold high) sc) as [Hsc|]; [|destruct Hx].
  destruct (Z.leb_spec (threshold low) sc) as [_|Hlt]; [exact Hx|lia].
Qed.

Lemma match_entity_threshold_monotone_witness :
  incl (@match_entity first_seen_order graded_score {| threshold := 90 |}
          "Google" ["Google"; "Google India"])
       (@match_entity first_seen_order graded_score {| threshold := 75 |}
          "Google" ["Google"; "Google India"]).
Proof.
  apply (@match_entity_threshold_monotone first_seen_order graded_score
           {| threshold := 75 |} {| threshold := 90 |}).
  cbn. lia.
Defined.

(** X17. [match_entity] returns the empty list, and raises nothing, when
    the input is empty, when the vocabulary has no non-empty value (an
    empty vocabulary included), or when the threshold is above 100, the
    top of the scale. *)
Theorem match_entity_finds_nothing {PS : PySet} {SC : Scorer}
  (self : FuzzyMatcher) (user_input : string) (db_values : list string) :
  user_input = EmptyString \/
  Forall (fun v => v = EmptyString) db_values \/
  (100 < threshold self)%Z ->
  match_entity self user_input db_values = [].
Proof.
  intros Hwhy.
  destruct (match_entity_cases self user_input db_values)
    as [(Hnil & _)|(Hsome & Hu & Hf)]; [exact Hnil|].
  destruct Hwhy as [Hempty|[Hblank|Hhigh]]; [contradiction| |].
  - exfalso. apply Hf. clear Hsome Hf.
    induction Hblank as [|v l Hv Hl IH]; [reflexivity|].
    subst v. cbn [filter truthy]. exact IH.
  - rewrite Hsome.
    assert (Hnone : matched_values self user_input (filter truthy db_values) = []).
    { unfold matched_values.
      generalize (of_pairs (map (fun v => (lower v, v)) (filter truthy db_values))).
      intros d.
      assert (Hall : forall ms,
                In ms (process_extract (lower user_input)
                         (map lower (filter truthy db_values)) 10) ->
                (snd ms <= 100)%Z).
      { intros [m sc] Hin. apply process_extract_In in Hin as (_ & ->).
        apply score_range. }
      induction (process_extract (lower user_input)
                   (map lower (filter truthy db_values)) 10) as [|[m sc] r IH];
        [reflexivity|].
      cbn [flat_map].
      specialize (Hall (m, sc) (or_introl eq_refl)) as Hsc. cbn [snd] in Hsc.
      destruct (Z.leb_spec (threshold self) sc); [lia|].
      cbn [app]. apply IH. intros ms Hin. apply Hall. now right. }
    rewrite Hnone. apply list_of_set_nil.
Qed.

Lemma match_entity_finds_nothing_witness :
  @match_entity first_seen_order containment_score {| threshold := 101 |}
    "Stripe" ["Stripe"] = [].
Proof.
  apply (@match_entity_finds_nothing first_seen_order containment_score).
  right. right. cbn. lia.
Defined.

(* ===================================================================== *)
(** ** More on extraction *)
(* ===================================================================== *)

Section ExtractionMore.

Lemma match_year_digits (prev : option ascii) (s y : string) :
  match_year prev s = Some y ->
  exists c d,
    is_digit c = true /\ is_digit d = true /\
    (y = String "1" (String "9" (String c (String d EmptyString))) \/
     y = String "2" (String "0" (String c (String d EmptyString)))).
Proof.
  unfold match_year. destruct (word_boundary prev s); [|discriminate].
  destruct s as [|a [|b [|c [|d rest]]]]; try discriminate.
  cbn [year_prefix].
  destruct ((Ascii.eqb a "1" && Ascii.eqb b "9" || Ascii.eqb a "2" && Ascii.eqb b "0")
            && is_digit c && is_digit d) eqn:E; [|discriminate].
  destruct (word_boundary _ rest); [|discriminate].
  intros [= <-]. exists c, d.
  apply andb_true_iff in E as [E Hd]. apply andb_true_iff in E as [E Hc].
  split; [exact Hc|]. split; [exact Hd|].
  apply orb_true_iff in E as [E|E]; apply andb_true_iff in E as [Ea Eb];
    apply Ascii.eqb_eq in Ea, Eb; subst a b; auto.
Qed.

Lemma findall_years_from_matches (s : string) :
  forall (skip : nat) (prev : option ascii) (y : string),
    In y (findall_years_from skip prev s) ->
    exists prev' s', match_year prev' s' = Some y.
Proof.
  induction s as [|c r IH]; intros skip prev y; cbn [findall_years_from]; [intros []|].
  destruct skip as [|k]; [|apply IH].
  destruct (match_year prev (String c r)) as [y'|] eqn:Hm; [|apply IH].
  intros [<-|Hin]; [eauto|]. eapply IH, Hin.
Qed.

Lemma digit_value_range (c : ascii) :
  is_digit c = true -> (0 <= digit_value c <= 9)%Z.
Proof.
  intros H. apply in_range_iff in H. unfold digit_value. lia.
Qed.

End ExtractionMore.

(** X18. Every extracted year is an integer from 1900 to 2099. *)
Theorem extracted_years_in_range {PS : PySet} (st : Store) (query : string) :
  Forall (fun y => (1900 <= y <= 2099)%Z)
         (ints_of (get "years" (extract_entities st query))).
Proof.
  unfold extract_entities. cbn [map get String.eqb Ascii.eqb Bool.eqb negb ints_of].
  apply Forall_forall. intros y Hy.
  apply in_map_iff in Hy as (t & <- & Ht).
  apply findall_years_from_matches in Ht as (prev & s & Hm).
  apply match_year_digits in Hm as (c & d & Hc & Hd & Hy).
  apply digit_value_range in Hc, Hd.
  destruct Hy as [-> | ->]; unfold int_of_digits;
    cbn [list_ascii_of_string fold_left];
    change (digit_value "1") with 1%Z; change (digit_value "9") with 9%Z;
    change (digit_value "2") with 2%Z; change (digit_value "0") with 0%Z; lia.
Qed.

(** X19. For a query of ASCII text, in each of the eight string
    categories, the extracted strings of ASCII text are exactly the
    non-empty vocabulary values of the category whose lower-case form
    occurs in the lower-cased query, with, for institutes only, the
    abbreviation keys that occur in it. *)
Theorem extracted_strings_are_occurrences {PS : PySet} (st : Store)
  (query key x : string) :
  ascii_text query = true -> ascii_text x = true ->
  In key entity_types ->
  (In x (strs_of (get key (extract_entities st query))) <->
   (In x (get_or key [] (_get_db_context st)) /\ x <> EmptyString /\
    contains (lower x) (lower query) = true) \/
   (key = "institutes" /\ In x (keys INSTITUTE_ABBREVIATIONS) /\
    contains x (lower query) = true)).
Proof.
  intros _ _ Hkey. unfold extract_entities.
  cbn [map get String.eqb Ascii.eqb Bool.eqb negb].
  unfold entity_types in Hkey. cbn [In] in Hkey.
  assert (Hocc : forall k,
    In x (list_of_set (occurring (_get_db_context st) k (lower query))) <->
    In x (get_or k [] (_get_db_context st)) /\ x <> EmptyString /\
    contains (lower x) (lower query) = true).
  { intros k. rewrite list_of_set_In. unfold occurring.
    rewrite filter_In, andb_true_iff, truthy_true_iff. tauto. }
  repeat (destruct Hkey as [<-|Hkey]); try contradiction;
    cbn [get String.eqb Ascii.eqb Bool.eqb strs_of];
    first
      [ rewrite Hocc; intuition discriminate
      | rewrite list_of_set_In, in_app_iff, filter_In;
        unfold occurring; rewrite filter_In, andb_true_iff, truthy_true_iff; tauto ].
Qed.

Lemma extracted_strings_are_occurrences_witness :
  In "Stripe"
     (strs_of (get "companies"
                 (@extract_entities first_seen_order
                    (store_with "companies" ["Stripe"; "Amazon"])
                    "Who worked at STRIPE?"))).
Proof.
  apply (@extracted_strings_are_occurrences first_seen_order
           (store_with "companies" ["Stripe"; "Amazon"])
           "Who worked at STRIPE?" "companies" "Stripe").
  - reflexivity.
  - reflexivity.
  - cbn. tauto.
  - left. split; [cbn; tauto|]. split; [discriminate|reflexivity].
Defined.

Section EntityContextFacts.

Lemma join_head (sep : string) (c : ascii) (x : string) (rest : list string) :
  exists tail, join sep (String c x :: rest) = String c tail.
Proof.
  destruct rest as [|y r]; cbn [join]; [eauto|].
  cbn [String.append]. eauto.
Qed.

(** The lines of the entity context: none when every map is empty, and
    otherwise a first line that opens a category. *)
Lemma entity_lines_cases (normalized : dict (dict (list string))) :
  let lines :=
    flat_map
      (fun te : string * dict (list string) =>
         let '(entity_type, entities) := te in
         if is_nil entities then [] else
         ("- " ++ title entity_type ++ ":")%string ::
         map (fun om : string * list string =>
                let matches_str :=
                  join ", " (map (fun m => ("'" ++ m ++ "'")%string) (snd om)) in
                ("  '" ++ fst om ++ "' → [" ++ matches_str ++ "]")%string)
             entities)
      normalized in
  (Forall (fun te => snd te = []) normalized /\ lines = []) \/
  (~ Forall (fun te => snd te = []) normalized /\
   exists first rest, lines = String "-" first :: rest).
Proof.
  induction normalized as [|[t e] r IH]; cbn [flat_map].
  - left. split; [constructor|reflexivity].
  - destruct e as [|x e]; cbn [is_nil app].
    + destruct IH as [(Hall & Hnil)|(Hnot & Hlines)].
      * left. split; [constructor; [reflexivity|exact Hall]|exact Hnil].
      * right. split; [|exact Hlines].
        intros H. apply Hnot. now inversion H.
    + right. split.
      * intros H. inversion H as [|? ? Hhd _]. discriminate Hhd.
      * cbn [String.append]. eauto.
Qed.

End EntityContextFacts.

(** X20. The entity context put in the prompt reads [No entities found]
    exactly when every category of the normalised entities has an empty
    map (no category at all included).  Years count here: a query whose
    only entities are years is described to the model by its years. *)
Theorem entity_context_none_iff_all_empty
  (normalized : dict (dict (list string))) :
  _build_entity_context normalized = "No entities found" <->
  Forall (fun te => snd te = []) normalized.
Proof.
  unfold _build_entity_context. cbv zeta.
  match goal with
  | |- context [flat_map ?f normalized] => set (lines := flat_map f normalized)
  end.
  assert (Hcases :
    (Forall (fun te => snd te = []) normalized /\ lines = []) \/
    (~ Forall (fun te => snd te = []) normalized /\
     exists first rest, lines = String "-" first :: rest))
    by exact (entity_lines_cases normalized).
  clearbody lines.
  destruct normalized as [|te r] eqn:Hn; [split; [constructor|reflexivity]|].
  cbn [is_nil]. rewrite <- Hn in *. clear Hn.
  destruct Hcases as [(Hall & ->)|(Hnot & first & rest & ->)].
  - cbn [is_nil]. tauto.
  - cbn [is_nil]. destruct (join_head newline "-" first rest) as (tail & ->).
    split; [discriminate|contradiction].
Qed.

(* ===================================================================== *)
(** ** Locations *)
(* ===================================================================== *)

Section SplitFacts.
Import IngestionPipeline.

Lemma split_on_not_nil (sep : ascii) (s : string) : split_on sep s <> [].
Proof.
  destruct s as [|c r]; cbn [split_on]; [discriminate|].
  destruct (Ascii.eqb c sep); [discriminate|].
  destruct (split_on sep r); discriminate.
Qed.

Lemma split_on_length (sep : ascii) (s : string) :
  List.length (split_on sep s) = S (count_char sep s).
Proof.
  induction s as [|c r IH]; cbn [split_on count_char]; [reflexivity|].
  destruct (Ascii.eqb c sep); cbn [List.length]; [now rewrite IH|].
  destruct (split_on sep r) as [|p ps]; cbn [List.length] in *; [discriminate IH|exact IH].
Qed.

(** A text without separator is its own single piece. *)
Lemma split_on_whole (sep : ascii) (s : string) :
  count_char sep s = 0 -> split_on sep s = [s].
Proof.
  induction s as [|c r IH]; cbn [split_on count_char]; [reflexivity|].
  destruct (Ascii.eqb c sep); [discriminate|]. cbn [Nat.add].
  intros H. now rewrite (IH H).
Qed.


(** No piece holds the separator. *)
Lemma split_on_pieces (sep : ascii) (s : string) :
  Forall (fun p => count_char sep p = 0) (split_on sep s).
Proof.
  induction s as [|c r IH]; cbn [split_on].
  - repeat constructor.
  - destruct (Ascii.eqb c sep) eqn:E; [constructor; [reflexivity|exact IH]|].
    destruct (split_on sep r) as [|p ps]; [repeat constructor; cbn; now rewrite E|].
    inversion IH as [|? ? Hp Hps]; subst.
    constructor; [cbn [count_char]; now rewrite E, Hp|exact Hps].
Qed.

Lemma lstrip_count (c : ascii) (s : string) :
  count_char c (lstrip s) <= count_char c s.
Proof.
  induction s as [|a r IH]; cbn [lstrip count_char]; [lia|].
  destruct (is_space a); cbn [count_char]; lia.
Qed.

Lemma rstrip_count (c : ascii) (s : string) :
  count_char c (rstrip s) <= count_char c s.
Proof.
  induction s as [|a r IH]; cbn [rstrip count_char]; [lia|].
  destruct (rstrip r) as [|b u] eqn:E.
  - destruct (is_space a); cbn [count_char]; lia.
  - cbn [count_char] in *. lia.
Qed.

Lemma strip_count (c : ascii) (s : string) :
  count_char c (strip s) <= count_char c s.
Proof.
  unfold strip. pose proof (rstrip_count c (lstrip s)). pose proof (lstrip_count c s). lia.
Qed.

Lemma strip_trimmed (s : string) : trimmed (strip s).
Proof. exact (strip_outer s). Qed.

End SplitFacts.

Section LocationFacts.
Import IngestionPipeline.


(** The parts of a location: stripped pieces without comma. *)
Lemma location_parts_clean (s : string) :
  Forall (fun p => trimmed p /\ count_char "," p = 0)
         (map strip (split_on "," s)).
Proof.
  pose proof (split_on_pieces "," s) as Hpieces.
  induction Hpieces as [|p ps Hp _ IH]; cbn [map]; constructor; [|exact IH].
  split; [apply strip_trimmed|].
  pose proof (strip_count "," p). lia.
Qed.

End LocationFacts.

(** X21. [parse_location] goes by the number of commas.  The empty text
    gives no component.  Otherwise no comma gives a city (the whole text,
    stripped), one comma a city and a country with no state, two commas a
    city, a state and a country, and three commas or more give no
    component at all. *)
Theorem parse_location_by_commas (location_str : string) :
  IngestionPipeline.parse_location EmptyString = (None, None, None) /\
  (location_str <> EmptyString ->
   match count_char "," location_str with
   | 0 => IngestionPipeline.parse_location location_str =
          (Some (strip location_str), None, None)
   | 1 => exists city country,
            IngestionPipeline.parse_location location_str =
            (Some city, None, Some country)
   | 2 => exists city state country,
            IngestionPipeline.parse_location location_str =
            (Some city, Some state, Some country)
   | _ => IngestionPipeline.parse_location location_str = (None, None, None)
   end).
Proof.
  split; [reflexivity|]. intros Hne. apply truthy_true_iff in Hne.
  unfold IngestionPipeline.parse_location. rewrite Hne. cbn [negb]. cbv zeta.
  pose proof (split_on_length "," location_str) as Hlen.
  destruct (count_char "," location_str) as [|[|[|n]]] eqn:Hcount.
  - now rewrite (split_on_whole "," location_str Hcount).
  - destruct (IngestionPipeline.split_on "," location_str) as [|a [|b [|c l]]];
      try discriminate Hlen. cbn [map]. eauto.
  - destruct (IngestionPipeline.split_on "," location_str) as [|a [|b [|c [|d l]]]];
      try discriminate Hlen. cbn [map]. eauto.
  - destruct (IngestionPipeline.split_on "," location_str) as [|a [|b [|c [|d l]]]];
      try discriminate Hlen. reflexivity.
Qed.



(** X23. Whatever the text, a component [parse_location] returns has no
    comma in it and neither starts nor ends with whitespace. *)
Theorem parse_location_components_clean (location_str : string) :
  let '(city, state, country) := IngestionPipeline.parse_location location_str in
  Forall (fun component =>
            match component with
            | Some x => trimmed x /\ count_char "," x = 0
            | None => True
            end) [city; state; country].
Proof.
  unfold IngestionPipeline.parse_location.
  destruct (truthy location_str); cbn [negb]; [|repeat constructor].
  cbv zeta. pose proof (location_parts_clean location_str) as Hparts.
  destruct (map strip (IngestionPipeline.split_on "," location_str))
    as [|a [|b [|c [|d l]]]]; try (repeat constructor; fail).
  - inversion Hparts as [|? ? Ha _]; subst. repeat constructor; apply Ha.
  - inversion Hparts as [|? ? Ha Hr]; subst. inversion Hr as [|? ? Hb _]; subst.
    repeat constructor; try apply Ha; apply Hb.
  - inversion Hparts as [|? ? Ha Hr]; subst. inversion Hr as [|? ? Hb Hr']; subst.
    inversion Hr' as [|? ? Hc _]; subst.
    repeat constructor; try apply Ha; try apply Hb; apply Hc.
Qed.

(* ===================================================================== *)
(** ** Extraction and normalisation together *)
(* ===================================================================== *)

(** X24. An abbreviation key that occurs in the lower-cased query is
    always resolved: [normalize_query] extracts it as an institute and
    maps it to its canonical name alone, whatever the vocabulary of the
    store holds (or when it cannot be read) and whatever the scorer. *)
Theorem abbreviation_in_query_is_resolved {PS : PySet} {SC : Scorer}
  (matcher : FuzzyMatcher) (st : Store) (user_query k canonical : string) :
  get k INSTITUTE_ABBREVIATIONS = Some canonical ->
  contains k (lower user_query) = true ->
  let result := normalize_query matcher st user_query in
  In k (strs_of (get "institutes" (extracted_entities result))) /\
  exists institutes,
    get "institutes" (normalized_entities result) = Some institutes /\
    get k institutes = Some [canonical].
Proof.
  intros Hkey Hocc result. subst result.
  cbn [normalize_query extracted_entities normalized_entities].
  assert (Hin : In k (strs_of (get "institutes" (extract_entities st user_query)))).
  { unfold extract_entities.
    cbn [map get String.eqb Ascii.eqb Bool.eqb negb strs_of].
    apply (proj2 (list_of_set_In _ _)), in_or_app. left.
    apply filter_In. split; [|exact Hocc].
    apply get_In in Hkey. unfold keys. apply in_map_iff. now exists (k, canonical). }
  split; [exact Hin|].
  assert (Htruthy : truthy_values (get "institutes" (extract_entities st user_query))
                    = true).
  { destruct (get "institutes" (extract_entities st user_query)) as [[[|x l]|l]|];
      cbn [strs_of] in Hin; try contradiction; reflexivity. }
  exists (normalize_institutes matcher st
            (strs_of (get "institutes" (extract_entities st user_query)))).
  split.
  - unfold normalize_all. cbv zeta.
    assert (Hinst : forall d,
      get "institutes"
        (add_normalized (extract_entities st user_query) "institutes"
           (normalize_institutes matcher st) d) =
      Some (normalize_institutes matcher st
              (strs_of (get "institutes" (extract_entities st user_query))))).
    { intros d. rewrite get_add_normalized, Htruthy. reflexivity. }
    destruct (truthy_values (get "years" (extract_entities st user_query)));
      [rewrite get_set; cbn [String.eqb Ascii.eqb Bool.eqb]|];
      rewrite !(get_add_normalized _ "domains"), !(get_add_normalized _ "degrees");
      cbn [String.eqb Ascii.eqb Bool.eqb andb]; apply Hinst.
  - rewrite normalize_institutes_as_entries, fold_entries_get.
    destruct (in_dec string_dec k _) as [_|Hnot]; [|contradiction].
    rewrite (abbreviation_keys_lowercase k canonical Hkey), Hkey.
    rewrite (list_of_set_constant canonical); [reflexivity|discriminate|].
    intros y [<-|[]]. reflexivity.
Qed.

Lemma abbreviation_in_query_is_resolved_witness :
  let result :=
    @normalize_query first_seen_order containment_score default_matcher
      unreachable_store "Who studied at IIT B?" in
  In "iit b" (strs_of (get "institutes" (extracted_entities result))) /\
  exists institutes,
    get "institutes" (normalized_entities result) = Some institutes /\
    get "iit b" institutes = Some ["Indian Institute of Technology, Bombay"].
Proof.
  apply (@abbreviation_in_query_is_resolved first_seen_order containment_score
           default_matcher unreachable_store "Who studied at IIT B?" "iit b"
           "Indian Institute of Technology, Bombay"); reflexivity.
Defined.

(* ===================================================================== *)
(** ** Error reasons *)
(* ===================================================================== *)

Section ErrorReasonFacts.



End ErrorReasonFacts.

